(** * AtLAST sensitivity calculator: a shallow embedding of
      [atlast_sc/calculator.py], [atlast_sc/config.py] and
      [atlast_sc/parameters/*.py]

    Magnitudes are Python floats in the source.  They are modelled here as
    real numbers, so every statement below is about exact arithmetic; the
    rounding of the float operations is not modelled.  The one convention
    that differs from numpy is division by zero, which numpy evaluates to
    [inf] or [nan] and which is [0] on [R]; the statements that divide
    assume non-zero denominators. *)

From Stdlib Require Import Reals Lra Psatz Sorted.
From stdpp Require Import base list strings gmap.

Open Scope R_scope.

(** ** Comparisons of magnitudes

    The source compares floats with [<], [>] and [>=] and branches on the
    result. *)

Definition Rltb (x y : R) : bool := if Rlt_dec x y then true else false.
Definition Rgtb (x y : R) : bool := Rltb y x.
Definition Rgeb (x y : R) : bool := if Rge_dec x y then true else false.

(** ** Physical quantities

    [astropy.units.Quantity] is an external primitive: a magnitude and a
    unit.  The embedding keeps the units the calculator names, their
    dimension and their scale to the coherent SI unit of that dimension.
    Arithmetic between quantities is carried out on SI magnitudes and its
    result is held in the SI unit until the source converts it with [.to].
    [SI_other] stands for the SI unit of a product or quotient whose
    dimension is none of the named ones. *)

Inductive Unit : Type :=
  | Hz | kHz | MHz | GHz
  | sec | minute | hour
  | uJy | mJy | Jy | J_m2
  | Kelvin | metre | micron | deg | dimensionless
  | SI_other.

Inductive Dimension : Type :=
  | dim_frequency | dim_time | dim_flux_density | dim_temperature
  | dim_length | dim_angle | dim_none | dim_other.

#[global] Instance Dimension_eq_dec : EqDecision Dimension.
Proof. solve_decision. Defined.

Definition dimension (u : Unit) : Dimension :=
  match u with
  | Hz | kHz | MHz | GHz => dim_frequency
  | sec | minute | hour => dim_time
  | uJy | mJy | Jy | J_m2 => dim_flux_density
  | Kelvin => dim_temperature
  | metre | micron => dim_length
  | deg => dim_angle
  | dimensionless => dim_none
  | SI_other => dim_other
  end.

Definition scale (u : Unit) : R :=
  match u with
  | Hz => 1 | kHz => 1e3 | MHz => 1e6 | GHz => 1e9
  | sec => 1 | minute => 60 | hour => 3600
  | uJy => 1e-32 | mJy => 1e-29 | Jy => 1e-26 | J_m2 => 1
  | Kelvin => 1 | metre => 1 | micron => 1e-6
  | deg => PI / 180
  | dimensionless => 1
  | SI_other => 1
  end.

Record Quantity : Type := mkQ { value : R; unit_of : Unit }.

(** The SI magnitude of a quantity. *)
Definition si (q : Quantity) : R := value q * scale (unit_of q).

(** The quantity [q] expressed in the unit [u] of the same dimension. *)
Definition convert (q : Quantity) (u : Unit) : Quantity :=
  mkQ (si q / scale u) u.

(** ** The parameter model ([atlast_sc.models])

    Each stored parameter is an object with a [value] attribute (the
    quantity) and a [unit] attribute; the setters of
    [UserInputParameters] write one or both. *)

Record ValueWithUnits : Type := mkVWU { vwu_value : Quantity; vwu_unit : Unit }.

Record UserInput : Type := mkUserInput {
  ui_t_int : ValueWithUnits;
  ui_sensitivity : ValueWithUnits;
  ui_bandwidth : ValueWithUnits;
  ui_obs_freq : ValueWithUnits;
  ui_n_pol : ValueWithUnits;
  ui_weather : ValueWithUnits;
  ui_elevation : ValueWithUnits }.

Record InstrumentSetup : Type := mkInstrumentSetup {
  is_g : ValueWithUnits;
  is_surface_rms : ValueWithUnits;
  is_dish_radius : ValueWithUnits;
  is_T_amb : ValueWithUnits;
  is_eta_eff : ValueWithUnits;
  is_eta_ill : ValueWithUnits;
  is_eta_spill : ValueWithUnits;
  is_eta_block : ValueWithUnits;
  is_eta_pol : ValueWithUnits }.

Record CalculationInput : Type := mkCalculationInput {
  user_input : UserInput;
  instrument_setup : InstrumentSetup;
  ci_T_cmb : ValueWithUnits }.

Record DerivedParams : Type := mkDerivedParams {
  dp_tau_atm : R;
  dp_T_atm : Quantity;
  dp_T_rx : Quantity;
  dp_eta_a : R;
  dp_eta_s : R;
  dp_T_sys : Quantity;
  dp_T_sky : Quantity;
  dp_sefd : Quantity }.

(** ** [atlast_sc/config.py]

    [Config] holds two references to [CalculationInput] objects.  The
    objects are mutable and [reset] rebinds a reference, so the embedding
    keeps the two objects that [__init__] creates in a small heap and the
    attributes as references into it. *)

Inductive Ref : Type :=
  | ref_built     (* the CalculationInput built by __init__ *)
  | ref_deepcopy. (* the object returned by copy.deepcopy *)

Record Heap : Type := mkHeap {
  cell_built : CalculationInput;
  cell_deepcopy : CalculationInput }.

Definition deref (h : Heap) (r : Ref) : CalculationInput :=
  match r with ref_built => cell_built h | ref_deepcopy => cell_deepcopy h end.

Definition assign (h : Heap) (r : Ref) (v : CalculationInput) : Heap :=
  match r with
  | ref_built => mkHeap v (cell_deepcopy h)
  | ref_deepcopy => mkHeap (cell_built h) v
  end.

Record Config : Type := mkConfig {
  heap : Heap;
  _calculation_inputs : Ref;
  _original_inputs : Ref }.

(** [Config.__init__], from the merged inputs [ci] that
    [CalculationInput(user_input=..., instrument_setup=...)] returns. *)
Definition Config_init (ci : CalculationInput) : Config :=
  mkConfig (mkHeap ci ci) ref_built ref_deepcopy.

(** The [calculation_inputs] property, read on an instance. *)
Definition calculation_inputs (c : Config) : CalculationInput :=
  deref (heap c) (_calculation_inputs c).

(** The object [_original_inputs] refers to. *)
Definition original_inputs (c : Config) : CalculationInput :=
  deref (heap c) (_original_inputs c).

(** [Config.reset]: [self._calculation_inputs = self._original_inputs]. *)
Definition Config_reset (c : Config) : Config :=
  mkConfig (heap c) (_original_inputs c) (_original_inputs c).

(** In-place update of the object that [calculation_inputs] returns. *)
Definition update_calculation_inputs
    (f : CalculationInput -> CalculationInput) (c : Config) : Config :=
  mkConfig (assign (heap c) (_calculation_inputs c) (f (calculation_inputs c)))
           (_calculation_inputs c) (_original_inputs c).

Definition update_user_input (f : UserInput -> UserInput)
    (ci : CalculationInput) : CalculationInput :=
  mkCalculationInput (f (user_input ci)) (instrument_setup ci) (ci_T_cmb ci).

(** ** Exceptions, warnings and the calculator object *)

Inductive exn : Type :=
  | ValueOutOfRangeException (parameter message : string)
  | UnitException (parameter message : string)
  | UnitConversionError (from_unit to_unit : Unit)
  | AttributeError (message : string)
  | ValueError (message : string).

(** [q.to(u)]: astropy raises [UnitConversionError] when the unit of [q]
    and [u] have different dimensions. *)
Definition to (q : Quantity) (u : Unit) : exn + Quantity :=
  if bool_decide (dimension (unit_of q) = dimension u)
  then inr (convert q u)
  else inl (UnitConversionError (unit_of q) u).

(** The text of a [CalculatedValueInvalidWarning] is built by
    [_calculated_value_error_msg] from the calculated value and from the
    [parameter] and [message] of the validation error. *)
Record Warning : Type := CalculatedValueInvalidWarning {
  w_calculated_value : Quantity;
  w_parameter : string;
  w_message : string }.

(** A [Calculator] object.  [_uip], [_isp] and [_dp] all hold the one
    [Config] object; [_dp] is the [DerivedParameters] wrapper, of which
    only [_derived_parameters] is state.  The class defines no property,
    so [sensitivity] and [t_int] are plain instance attributes;
    [__init__] binds the first, [calculate_t_integration] the second. *)
Record Calculator : Type := mkCalculator {
  _finetune : bool;
  _config : Config;
  _dp : DerivedParams;
  sensitivity : Quantity;
  t_int : option Quantity }.

Record World : Type := mkWorld {
  self : Calculator;
  warnings : list Warning }.

(** Computations that read and write the calculator, may raise, and may
    emit warnings.  The state survives a raise, as in Python. *)
Definition M (A : Type) : Type := World -> (exn + A) * World.

Definition ret {A} (a : A) : M A := fun w => (inr a, w).
Definition raise {A} (e : exn) : M A := fun w => (inl e, w).
Definition bind {A B} (m : M A) (k : A -> M B) : M B :=
  fun w => match m w with
           | (inl e, w') => (inl e, w')
           | (inr a, w') => k a w'
           end.

Notation "x <- m ;; k" := (bind m (fun x => k))
  (at level 100, m at next level, right associativity).
Notation "m ;;; k" := (bind m (fun _ => k))
  (at level 100, right associativity).

Definition get_self : M Calculator := fun w => (inr (self w), w).
Definition put_self (c : Calculator) : M () := fun w => (inr (), mkWorld c (warnings w)).
Definition warn (m : Warning) : M () :=
  fun w => (inr (), mkWorld (self w) (warnings w ++ [m])).

(** [try: body except ValueOutOfRangeException as e: handler(e)] *)
Definition try_except_ValueOutOfRange {A}
    (body : M A) (handler : string -> string -> M A) : M A :=
  fun w => match body w with
           | (inl (ValueOutOfRangeException p msg), w') => handler p msg w'
           | r => r
           end.

Definition set_config (cfg : Config) (c : Calculator) : Calculator :=
  mkCalculator (_finetune c) cfg (_dp c) (sensitivity c) (t_int c).
Definition set_dp (d : DerivedParams) (c : Calculator) : Calculator :=
  mkCalculator (_finetune c) (_config c) d (sensitivity c) (t_int c).
(** [self.sensitivity = v] on a [Calculator] *)
Definition setattr_sensitivity (v : Quantity) (c : Calculator) : Calculator :=
  mkCalculator (_finetune c) (_config c) (_dp c) v (t_int c).
(** [self.t_int = v] on a [Calculator] *)
Definition setattr_t_int (v : Quantity) (c : Calculator) : Calculator :=
  mkCalculator (_finetune c) (_config c) (_dp c) (sensitivity c) (Some v).

Definition modify_self (f : Calculator -> Calculator) : M () :=
  c <- get_self ;; put_self (f c).

(** ** [atlast_sc/parameters/user_input_parameters.py]: getters

    Each reads [self.config.calculation_inputs.user_input.<name>.value]. *)

Definition uip_t_int (cfg : Config) : Quantity :=
  vwu_value (ui_t_int (user_input (calculation_inputs cfg))).
Definition uip_sensitivity (cfg : Config) : Quantity :=
  vwu_value (ui_sensitivity (user_input (calculation_inputs cfg))).
Definition uip_bandwidth (cfg : Config) : Quantity :=
  vwu_value (ui_bandwidth (user_input (calculation_inputs cfg))).
Definition uip_obs_freq (cfg : Config) : Quantity :=
  vwu_value (ui_obs_freq (user_input (calculation_inputs cfg))).
Definition uip_n_pol (cfg : Config) : Quantity :=
  vwu_value (ui_n_pol (user_input (calculation_inputs cfg))).
Definition uip_weather (cfg : Config) : Quantity :=
  vwu_value (ui_weather (user_input (calculation_inputs cfg))).
Definition uip_elevation (cfg : Config) : Quantity :=
  vwu_value (ui_elevation (user_input (calculation_inputs cfg))).

(** ** [atlast_sc/parameters/instrument_setup_parameters.py]: getters *)

Definition isp_g (cfg : Config) : Quantity :=
  vwu_value (is_g (instrument_setup (calculation_inputs cfg))).
Definition isp_surface_rms (cfg : Config) : Quantity :=
  vwu_value (is_surface_rms (instrument_setup (calculation_inputs cfg))).
Definition isp_dish_radius (cfg : Config) : Quantity :=
  vwu_value (is_dish_radius (instrument_setup (calculation_inputs cfg))).
Definition isp_T_amb (cfg : Config) : Quantity :=
  vwu_value (is_T_amb (instrument_setup (calculation_inputs cfg))).
Definition isp_eta_eff (cfg : Config) : Quantity :=
  vwu_value (is_eta_eff (instrument_setup (calculation_inputs cfg))).
Definition isp_eta_ill (cfg : Config) : Quantity :=
  vwu_value (is_eta_ill (instrument_setup (calculation_inputs cfg))).
Definition isp_eta_spill (cfg : Config) : Quantity :=
  vwu_value (is_eta_spill (instrument_setup (calculation_inputs cfg))).
Definition isp_eta_block (cfg : Config) : Quantity :=
  vwu_value (is_eta_block (instrument_setup (calculation_inputs cfg))).
Definition isp_eta_pol (cfg : Config) : Quantity :=
  vwu_value (is_eta_pol (instrument_setup (calculation_inputs cfg))).
Definition isp_T_cmb (cfg : Config) : Quantity :=
  vwu_value (ci_T_cmb (calculation_inputs cfg)).

(** ** Setter bodies of [UserInputParameters]

    The bodies below are the statements under each [@<name>.setter], before
    any decorator is applied. *)

(** [t_int]: writes [.value] and [.unit] through [self.config]. *)
Definition uip_t_int_body (v : Quantity) (cfg : Config) : Config :=
  update_calculation_inputs (update_user_input (fun ui =>
    mkUserInput (mkVWU v (unit_of v)) (ui_sensitivity ui) (ui_bandwidth ui)
                (ui_obs_freq ui) (ui_n_pol ui) (ui_weather ui) (ui_elevation ui))) cfg.

Definition uip_bandwidth_body (v : Quantity) (cfg : Config) : Config :=
  update_calculation_inputs (update_user_input (fun ui =>
    mkUserInput (ui_t_int ui) (ui_sensitivity ui) (mkVWU v (unit_of v))
                (ui_obs_freq ui) (ui_n_pol ui) (ui_weather ui) (ui_elevation ui))) cfg.

Definition uip_obs_freq_body (v : Quantity) (cfg : Config) : Config :=
  update_calculation_inputs (update_user_input (fun ui =>
    mkUserInput (ui_t_int ui) (ui_sensitivity ui) (ui_bandwidth ui)
                (mkVWU v (unit_of v)) (ui_n_pol ui) (ui_weather ui) (ui_elevation ui))) cfg.

(** [n_pol] and [weather] write [.value] only. *)
Definition uip_n_pol_body (v : Quantity) (cfg : Config) : Config :=
  update_calculation_inputs (update_user_input (fun ui =>
    mkUserInput (ui_t_int ui) (ui_sensitivity ui) (ui_bandwidth ui)
                (ui_obs_freq ui) (mkVWU v (vwu_unit (ui_n_pol ui)))
                (ui_weather ui) (ui_elevation ui))) cfg.

Definition uip_weather_body (v : Quantity) (cfg : Config) : Config :=
  update_calculation_inputs (update_user_input (fun ui =>
    mkUserInput (ui_t_int ui) (ui_sensitivity ui) (ui_bandwidth ui)
                (ui_obs_freq ui) (ui_n_pol ui)
                (mkVWU v (vwu_unit (ui_weather ui))) (ui_elevation ui))) cfg.

Definition uip_elevation_body (v : Quantity) (cfg : Config) : Config :=
  update_calculation_inputs (update_user_input (fun ui =>
    mkUserInput (ui_t_int ui) (ui_sensitivity ui) (ui_bandwidth ui)
                (ui_obs_freq ui) (ui_n_pol ui) (ui_weather ui)
                (mkVWU v (unit_of v)))) cfg.

(** The body of the [sensitivity] setter does not go through
    [self.config]: it starts from [Config.calculation_inputs], an attribute
    of the class object.  Read on the class, a property is the property
    object itself, and attribute lookup on that object knows the names
    below only. *)

Inductive PyObject : Type :=
  | property_object (name : string)
  | attribute_of_property (name : string).

Definition Config_class_getattr (name : string) : exn + PyObject :=
  if String.eqb name "calculation_inputs" then inr (property_object name)
  else inl (AttributeError ("type object 'Config' has no attribute '" +:+ name +:+ "'")).

Definition property_attributes : list string :=
  ["fget"; "fset"; "fdel"; "getter"; "setter"; "deleter"; "__doc__"].

Definition PyObject_getattr (o : PyObject) (name : string) : exn + PyObject :=
  match o with
  | property_object _ =>
      if bool_decide (name ∈ property_attributes)
      then inr (attribute_of_property name)
      else inl (AttributeError ("'property' object has no attribute '" +:+ name +:+ "'"))
  | attribute_of_property _ =>
      inl (AttributeError ("object has no attribute '" +:+ name +:+ "'"))
  end.

(** [o.name = v] on one of the objects above: none of them accepts the
    attributes [value] and [unit]. *)
Definition PyObject_setattr (o : PyObject) (name : string) : exn + () :=
  inl (AttributeError ("object has no attribute '" +:+ name +:+ "'")).

Definition lift {A} (r : exn + A) : M A := fun w => (r, w).

(** [Config.calculation_inputs.user_input.sensitivity.<attr> = ...] *)
Definition Config_class_sensitivity_assign (attr : string) : M () :=
  p <- lift (Config_class_getattr "calculation_inputs") ;;
  ui <- lift (PyObject_getattr p "user_input") ;;
  s <- lift (PyObject_getattr ui "sensitivity") ;;
  lift (PyObject_setattr s attr).

Definition uip_sensitivity_body (v : Quantity) : M () :=
  Config_class_sensitivity_assign "value" ;;;
  Config_class_sensitivity_assign "unit".

(** ** Quantity arithmetic used by the calculator

    The operands of the sums and comparisons below are read from the
    configuration, or have just been converted with [.to], so that they
    have one dimension. *)

(** [a - b] and [a + b]: the result is in the unit of [a]. *)
Definition Qsub (a b : Quantity) : Quantity :=
  mkQ (value a - value (convert b (unit_of a))) (unit_of a).
Definition Qadd (a b : Quantity) : Quantity :=
  mkQ (value a + value (convert b (unit_of a))) (unit_of a).
(** [k * a] for a plain number [k]. *)
Definition Qscale (k : R) (a : Quantity) : Quantity :=
  mkQ (k * value a) (unit_of a).
(** [a < b] and [a >= b]: [b] is converted to the unit of [a]. *)
Definition Qlt (a b : Quantity) : bool :=
  Rltb (value a) (value (convert b (unit_of a))).
Definition Qge (a b : Quantity) : bool :=
  Rgeb (value a) (value (convert b (unit_of a))).

(** [astropy.constants.k_B], in J/K. *)
Definition k_B : R := 1.380649e-23.

(** [np.sum] of a one-dimensional array. *)
Definition np_sum (l : list R) : R := foldr Rplus 0 l.

(** ** External collaborators ([atlast_sc.derived_groups]) *)

Record EfficienciesT : Type := mkEfficiencies { eta_a : R; eta_s : R }.

Record TemperaturesT : Type := mkTemperatures {
  T_rx : Quantity; T_sys : Quantity; T_sky : Quantity }.

Record AtmosphereParams : Type := mkAtmosphereParams {
  calculate_tau_atm : Quantity -> Quantity -> Quantity -> R;
  calculate_atmospheric_temperature : Quantity -> Quantity -> Quantity;
  (** [tau_atm_table[:, 0]]: the frequency column of the table, in GHz *)
  tau_atm_table_freq : list R }.

(** ** [find_applicable_instruments]: the two literal tables *)

Definition instrument_obs_freqs : list (string * list (R * R)) :=
  [ ("finer", [(120.0, 360.0)]);
    ("sepia", [(163.0, 211.0); (272.0, 376.0); (600.0, 722.0)]);
    ("chai", [(460.0, 500.0); (780.0, 820.0)]);
    ("tifuun", [(90.0, 360.0)]);
    ("gltcam", [(130.0, 170.0); (190.0, 250.0); (250.0, 295.0);
                (330.0, 365.0); (385.0, 415.0); (630.0, 710.0)]);
    ("muscat", [(250.0, 300.0)]) ].

Definition instrument_bandw_vals : list (string * list (R * R)) :=
  [ ("finer", [(10500.0, 3000000.0)]);
    ("sepia", [(10000.0, 5600000.0); (10000.0, 32000000.0);
               (10000.0, 10000000.0)]);
    ("chai", [(10000.0, 1000000.0); (10000.0, 1000000.0)]);
    ("tifuun", [(10.0, 1000.0)]);
    ("gltcam", [(1.0, 5.0); (1.0, 5.0); (1.0, 5.0); (1.0, 5.0); (1.0, 5.0);
                (1.0, 5.0)]);
    ("muscat", [(1.0, 5.0)]) ].

(** [x > min and x < max] *)
Definition in_open_range (x : R) (range : R * R) : bool :=
  Rgtb x (fst range) && Rltb x (snd range).

(** One of the two loops: every tuple that contains [x] appends its
    instrument to the list, so an instrument can occur more than once. *)
Definition applicable_list (x : R) (table : list (string * list (R * R)))
    : list string :=
  flat_map (fun entry =>
    flat_map (fun range =>
      if in_open_range x range then [fst entry] else []) (snd entry)) table.

(** [list(set(a) & set(b))]: the order of the returned list is that of a
    Python set, which the language leaves open; the embedding returns the
    set. *)
Definition find_applicable_instruments (c : Calculator) : gset string :=
  let obs_freq := value (uip_obs_freq (_config c)) in
  let bandwidth := value (uip_bandwidth (_config c)) in
  let applicable_obs_freq_instruments := applicable_list obs_freq instrument_obs_freqs in
  let applicable_bandw_instruments := applicable_list bandwidth instrument_bandw_vals in
  list_to_set applicable_obs_freq_instruments ∩ list_to_set applicable_bandw_instruments.

(** ** Unit tiering of the two results *)

(** Lines 88-94 of [calculator.py], for a [sensitivity] that is a flux
    density: the conversion of line 88 has succeeded and the conversions
    of the branches are between units of one dimension. *)
Definition rescale_sensitivity (sensitivity : Quantity) : Quantity :=
  let sensitivityresult := convert sensitivity mJy in
  if Qlt sensitivityresult (mkQ 1 mJy) then convert sensitivity uJy
  else if Qge sensitivityresult (mkQ 1 mJy) && Qlt sensitivityresult (mkQ 1000 mJy)
       then convert sensitivity mJy
  else if Qge sensitivityresult (mkQ 1000 mJy) then convert sensitivity Jy
  else sensitivity.

(** Lines 140-146 of [calculator.py], for a [t_int] that is a time. *)
Definition rescale_t_int (t_int : Quantity) : Quantity :=
  let timeresult := convert t_int sec in
  if Qlt timeresult (mkQ 60 sec) then convert t_int sec
  else if Qge timeresult (mkQ 60 sec) && Qlt timeresult (mkQ 3600 sec)
       then convert t_int minute
  else if Qge timeresult (mkQ 3600 sec) then convert t_int hour
  else t_int.

(** [_calculated_value_error_msg] *)
Definition _calculated_value_error_msg
    (calculated_value : Quantity) (parameter message : string) : Warning :=
  CalculatedValueInvalidWarning calculated_value parameter message.

Section Calculator.

(** The collaborators that the calculator imports from
    [atlast_sc.derived_groups], [atlast_sc.models] and [atlast_sc.utils]
    are parameters of the embedding. *)

(** The declared unit and range check of a stored parameter
    ([atlast_sc.models] and [atlast_sc.utils]): [None] when the value is
    accepted, the exception raised otherwise.  The unit check comes
    first, so an accepted value has a unit of the dimension of the
    parameter. *)
Variable field_check : string -> Quantity -> option exn.

(** [Efficiencies(obs_freq, surface_rms, eta_ill, eta_spill, eta_block,
    eta_pol)] *)
Variable Efficiencies :
  Quantity -> Quantity -> Quantity -> Quantity -> Quantity -> Quantity ->
  EfficienciesT.

(** [AtmosphereParams()] *)
Variable atm : AtmosphereParams.

(** [Temperatures(obs_freq, T_cmb, T_amb, g, eta_eff, T_atm, tau_atm)] *)
Variable Temperatures :
  Quantity -> Quantity -> Quantity -> Quantity -> Quantity -> Quantity ->
  R -> TemperaturesT.

(** Modelled from the spec: [DataHelper.validate] of [atlast_sc.utils],
    which is missing; it runs the unit and range check of the named
    parameter and raises when the check fails. *)
Definition DataHelper_validate (name : string) (v : Quantity) : M () :=
  match field_check name v with
  | Some e => raise e
  | None => ret ()
  end.

(** Modelled from the spec: the decorator [Decorators.validate_value] of
    [atlast_sc.utils], which is missing; the value is checked first and
    the setter body runs only when the check passes. *)
Definition validate_value (name : string) (setter : Quantity -> M ())
    (v : Quantity) : M () :=
  DataHelper_validate name v ;;; setter v.

(** *** [Calculator._calculate_sefd] *)
Definition _calculate_sefd (cfg : Config) (T_sys : Quantity) (eta_a : R)
    : Quantity :=
  let dish_area := PI * si (isp_dish_radius cfg) ^ 2 in
  mkQ ((2 * k_B * si T_sys) / (eta_a * dish_area)) J_m2.

(** The band edges in GHz (lines 286-287); the stored observing
    frequency and bandwidth are frequencies. *)
Definition obs_freq_low (cfg : Config) : R :=
  value (convert (Qsub (uip_obs_freq cfg) (Qscale 0.50 (uip_bandwidth cfg))) GHz).
Definition obs_freq_upp (cfg : Config) : R :=
  value (convert (Qadd (uip_obs_freq cfg) (Qscale 0.50 (uip_bandwidth cfg))) GHz).

(** The table frequencies strictly inside the band (lines 290-291). *)
Definition grid_in_band (cfg : Config) : list R :=
  List.filter (fun f => Rgtb f (obs_freq_low cfg) && Rltb f (obs_freq_upp cfg))
              (tau_atm_table_freq atm).

(** The padded frequency list, in GHz (line 294). *)
Definition obs_freq_list (cfg : Config) : list R :=
  [obs_freq_low cfg] ++ grid_in_band cfg ++ [obs_freq_upp cfg].

(** [l[1:] - l[:-1]] and [(l[1:] + l[:-1]) * 0.50] (lines 308-309). *)
Definition obs_band_list (l : list R) : list R :=
  zip_with Rminus (tail l) (removelast l).
Definition obs_mid_list (l : list R) : list R :=
  zip_with (fun a b => (a + b) * 0.50) (tail l) (removelast l).

(** The SEFD of one narrow channel centred on [freq] GHz, as a magnitude
    in J/m2 (lines 313-319). *)
Definition channel_sefd (cfg : Config) (eta : EfficienciesT) (freq : R) : R :=
  let freq := mkQ freq GHz in
  let _tau_atm := calculate_tau_atm atm freq (uip_weather cfg) (uip_elevation cfg) in
  let _T_atm := calculate_atmospheric_temperature atm freq (uip_weather cfg) in
  let _temps := Temperatures freq (isp_T_cmb cfg) (isp_T_amb cfg) (isp_g cfg)
                             (isp_eta_eff cfg) _T_atm _tau_atm in
  value (convert (_calculate_sefd cfg (T_sys _temps) (eta_a eta)) J_m2).

(** [np.sqrt(bandwidth / np.sum(obs_band_list / _sefd**2))] (line 323);
    the channel widths are in GHz. *)
Definition effective_sefd (bandwidth : Quantity) (bands sefds : list R)
    : Quantity :=
  mkQ (sqrt (si bandwidth /
             np_sum (zip_with (fun b s => b * scale GHz / s ^ 2) bands sefds)))
      J_m2.

(** *** [Calculator._calculate_derived_parameters] *)
Definition derived_parameters_of (finetune : bool) (cfg : Config)
    : DerivedParams :=
  let eta := Efficiencies (uip_obs_freq cfg) (isp_surface_rms cfg)
               (isp_eta_ill cfg) (isp_eta_spill cfg) (isp_eta_block cfg)
               (isp_eta_pol cfg) in
  let tau_atm := calculate_tau_atm atm (uip_obs_freq cfg) (uip_weather cfg)
                   (uip_elevation cfg) in
  let T_atm := calculate_atmospheric_temperature atm (uip_obs_freq cfg)
                 (uip_weather cfg) in
  let temps := Temperatures (uip_obs_freq cfg) (isp_T_cmb cfg) (isp_T_amb cfg)
                 (isp_g cfg) (isp_eta_eff cfg) T_atm tau_atm in
  let freqs := obs_freq_list cfg in
  let sefd :=
    if finetune && Nat.ltb 1 (length freqs) then
      let bands := obs_band_list freqs in
      let mids := obs_mid_list freqs in
      let _sefd := map (channel_sefd cfg eta) mids in
      effective_sefd (uip_bandwidth cfg) bands _sefd
    else
      _calculate_sefd cfg (T_sys temps) (eta_a eta) in
  mkDerivedParams tau_atm T_atm (T_rx temps) (eta_a eta) (eta_s eta)
                  (T_sys temps) (T_sky temps) sefd.

Definition _calculate_derived_parameters (c : Calculator) : DerivedParams :=
  derived_parameters_of (_finetune c) (_config c).

(** The efficiencies, channel widths (GHz) and channel SEFDs (J/m2) that
    the finetune branch works with, named for the statements below. *)
Definition efficiencies_of (cfg : Config) : EfficienciesT :=
  Efficiencies (uip_obs_freq cfg) (isp_surface_rms cfg) (isp_eta_ill cfg)
    (isp_eta_spill cfg) (isp_eta_block cfg) (isp_eta_pol cfg).
Definition channel_bands (cfg : Config) : list R :=
  obs_band_list (obs_freq_list cfg).
Definition channel_sefds (cfg : Config) : list R :=
  map (channel_sefd cfg (efficiencies_of cfg))
      (obs_mid_list (obs_freq_list cfg)).

(** The simple-mode SEFD at the band centre (line 325). *)
Definition simple_sefd (cfg : Config) : Quantity :=
  dp_sefd (derived_parameters_of false cfg).

(** Modelled from the spec: the decorator
    [Decorators.validate_and_update_params] of [atlast_sc.utils], which
    is missing; after the check and the setter body the derived
    parameters are recomputed and replace the snapshot held by [_dp]. *)
Definition validate_and_update_params (name : string)
    (setter : Quantity -> M ()) (v : Quantity) : M () :=
  DataHelper_validate name v ;;;
  setter v ;;;
  c <- get_self ;;
  put_self (set_dp (_calculate_derived_parameters c) c).

Definition on_config (f : Config -> Config) : M () :=
  modify_self (fun c => set_config (f (_config c)) c).

(** *** The setters of [UserInputParameters], as the class declares them *)
Definition uip_set_t_int : Quantity -> M () :=
  validate_value "t_int" (fun v => on_config (uip_t_int_body v)).
Definition uip_set_sensitivity : Quantity -> M () :=
  validate_value "sensitivity" uip_sensitivity_body.
Definition uip_set_n_pol : Quantity -> M () :=
  validate_value "n_pol" (fun v => on_config (uip_n_pol_body v)).
Definition uip_set_bandwidth : Quantity -> M () :=
  validate_and_update_params "bandwidth" (fun v => on_config (uip_bandwidth_body v)).
Definition uip_set_obs_freq : Quantity -> M () :=
  validate_and_update_params "obs_freq" (fun v => on_config (uip_obs_freq_body v)).
Definition uip_set_weather : Quantity -> M () :=
  validate_and_update_params "weather" (fun v => on_config (uip_weather_body v)).
Definition uip_set_elevation : Quantity -> M () :=
  validate_and_update_params "elevation" (fun v => on_config (uip_elevation_body v)).

(** *** [Calculator.__init__], from the merged calculation inputs *)
Definition Calculator_init (finetune : bool) (ci : CalculationInput)
    : Calculator :=
  let cfg := Config_init ci in
  mkCalculator finetune cfg (derived_parameters_of finetune cfg)
               (uip_sensitivity cfg) None.

(** The radiometer equation (lines 83-85), in SI magnitudes.  The SEFD
    and the system efficiency are read from the derived parameters, the
    number of polarisations and the bandwidth from the configuration, and
    the integration time has passed the check of the [t_int] parameter or
    is the stored one: the operands have their declared dimensions and
    the result is a flux density. *)
Definition sensitivity_formula (c : Calculator) (t_int : Quantity) : Quantity :=
  mkQ (si (dp_sefd (_dp c)) /
       (dp_eta_s (_dp c) *
        sqrt (si (uip_n_pol (_config c)) * si (uip_bandwidth (_config c)) * si t_int)))
      J_m2.

(** Lines 136-137, in SI magnitudes, for a sensitivity that is a flux
    density: the result is then a time. *)
Definition t_int_formula (c : Calculator) (sensitivity : Quantity) : Quantity :=
  mkQ ((si (dp_sefd (_dp c)) / (si sensitivity * dp_eta_s (_dp c))) ^ 2 /
       (si (uip_n_pol (_config c)) * si (uip_bandwidth (_config c))))
      sec.

(** [True] when the unit of [q] is a unit of flux density. *)
Definition is_flux_density (q : Quantity) : bool :=
  bool_decide (dimension (unit_of q) = dim_flux_density).

(** The quantity that lines 136-137 bind to [t_int].  The sensitivity is
    the one operand that can reach the formula without a check: line 130
    binds the argument to a plain attribute, and line 134 reads that
    attribute back.  A sensitivity that [DataHelper.validate] accepted
    ([validated]) is a flux density; one that was not validated has the
    unit it came with, and with a unit of another dimension the result
    is not a time. *)
Definition t_int_quantity (validated : bool) (c : Calculator)
    (sensitivity : Quantity) : Quantity :=
  if validated || is_flux_density sensitivity
  then t_int_formula c sensitivity
  else mkQ (value (t_int_formula c sensitivity)) SI_other.

(** *** [Calculator.calculate_sensitivity] *)
Definition calculate_sensitivity (t_int : option Quantity)
    (update_calculator : bool) : M Quantity :=
  t_int <- match t_int with
           | Some t_int =>
               (if update_calculator then uip_set_t_int t_int
                else DataHelper_validate "t_int" t_int) ;;;
               ret t_int
           | None => c <- get_self ;; ret (uip_t_int (_config c))
           end ;;
  c <- get_self ;;
  let sensitivity := sensitivity_formula c t_int in
  sensitivityresult <- lift (to sensitivity mJy) ;;
  let sensitivity := rescale_sensitivity sensitivity in
  (if update_calculator then
     try_except_ValueOutOfRange
       (modify_self (setattr_sensitivity sensitivity))
       (fun parameter message =>
          warn (_calculated_value_error_msg sensitivity parameter message))
   else ret ()) ;;;
  ret sensitivity.

(** *** [Calculator.calculate_t_integration] *)
Definition calculate_t_integration (sensitivity_arg : option Quantity)
    (update_calculator : bool) : M Quantity :=
  operand <- match sensitivity_arg with
             | Some s =>
                 if update_calculator
                 then modify_self (setattr_sensitivity s) ;;; ret (s, false)
                 else DataHelper_validate "sensitivity" s ;;; ret (s, true)
             | None => c <- get_self ;; ret (sensitivity c, false)
             end ;;
  let sens := fst operand in
  let validated := snd operand in
  c <- get_self ;;
  let t_int := t_int_quantity validated c sens in
  timeresult <- lift (to t_int sec) ;;
  let t_int := rescale_t_int t_int in
  (if update_calculator then
     try_except_ValueOutOfRange
       (modify_self (setattr_t_int t_int))
       (fun parameter message =>
          warn (_calculated_value_error_msg t_int parameter message))
   else ret ()) ;;;
  ret t_int.

(** *** [Calculator.reset]

    The value that [_calculate_derived_parameters] returns is not bound
    to anything. *)
Definition reset : M () :=
  on_config Config_reset ;;;
  c <- get_self ;;
  _ <- ret (_calculate_derived_parameters c) ;;
  ret ().

End Calculator.

(** ** The unit tiers, as the specification words them

    Strictly below 1 mJy: uJy; from 1 mJy and below 1000 mJy: mJy; from
    1000 mJy: Jy.  Below 60 s: s; from 60 s and below 3600 s: min; from
    3600 s: h.  The arguments are SI magnitudes. *)

Definition sensitivity_tier (x : R) : Unit :=
  if Rltb x (1 * scale mJy) then uJy
  else if Rltb x (1000 * scale mJy) then mJy
  else Jy.

Definition time_tier (x : R) : Unit :=
  if Rltb x 60 then sec
  else if Rltb x 3600 then minute
  else hour.

(** Smallest and largest element of a list of magnitudes. *)
Definition min_of (l : list R) : R :=
  match l with [] => 0 | x :: l' => foldr Rmin x l' end.
Definition max_of (l : list R) : R :=
  match l with [] => 0 | x :: l' => foldr Rmax x l' end.


(** ** A sample configuration

    The default inputs of the calculator and a small stand-in for each
    collaborator, used to run the definitions above on concrete inputs. *)

Definition plain (x : R) : ValueWithUnits := mkVWU (mkQ x dimensionless) dimensionless.
Definition with_unit (x : R) (u : Unit) : ValueWithUnits := mkVWU (mkQ x u) u.

Definition sample_user_input : UserInput :=
  mkUserInput (with_unit 100 sec) (with_unit 3 mJy) (with_unit 7.5 GHz)
              (with_unit 100 GHz) (plain 2) (plain 25) (with_unit 45 deg).

Definition sample_instrument_setup : InstrumentSetup :=
  mkInstrumentSetup (plain 1) (with_unit 25 micron) (with_unit 25 metre)
                    (with_unit 270 Kelvin) (plain 0.8) (plain 0.8)
                    (plain 0.95) (plain 0.94) (plain 0.995).

Definition sample_inputs : CalculationInput :=
  mkCalculationInput sample_user_input sample_instrument_setup
                     (with_unit 2.726 Kelvin).

(** Integration times from 1 s, sensitivities above 0. *)
Definition sample_field_check (name : string) (v : Quantity) : option exn :=
  if String.eqb name "t_int" then
    if Rltb (si v) 1
    then Some (ValueOutOfRangeException "t_int" "The value must be greater than or equal to 1 s.")
    else None
  else if String.eqb name "sensitivity" then
    if Rgtb (si v) 0 then None
    else Some (ValueOutOfRangeException "sensitivity" "The value must be greater than 0 Jy.")
  else None.

Definition sample_Efficiencies
    (obs_freq surface_rms eta_ill eta_spill eta_block eta_pol : Quantity)
    : EfficienciesT :=
  mkEfficiencies (value eta_ill * value eta_block) (value eta_spill * value eta_pol).

(** A three-row table, 10 GHz apart. *)
Definition sample_atm : AtmosphereParams :=
  mkAtmosphereParams (fun _ _ _ => 0.05) (fun _ _ => mkQ 260 Kelvin)
                     [90; 100; 110].

(** A system temperature with its minimum at 100 GHz. *)
Definition sample_Temperatures
    (obs_freq T_cmb T_amb g eta_eff T_atm : Quantity) (tau_atm : R)
    : TemperaturesT :=
  mkTemperatures (mkQ 50 Kelvin)
                 (mkQ (50 + (si obs_freq / scale GHz - 100) ^ 2) Kelvin)
                 T_atm.

Definition sample_config : Config := Config_init sample_inputs.

Definition sample_calculator (finetune : bool) : Calculator :=
  Calculator_init sample_Efficiencies sample_atm sample_Temperatures
                  finetune sample_inputs.

Definition sample_world (finetune : bool) : World :=
  mkWorld (sample_calculator finetune) [].


(** A calculator over the sample configuration whose derived parameters
    are round numbers: an SEFD of 100 Jy and a system efficiency of 0.98. *)
Definition round_derived : DerivedParams :=
  mkDerivedParams 0.05 (mkQ 260 Kelvin) (mkQ 50 Kelvin) 0.75 0.98
                  (mkQ 50 Kelvin) (mkQ 260 Kelvin) (mkQ 1e-24 J_m2).

Definition round_calculator : Calculator :=
  mkCalculator false sample_config round_derived (mkQ 3 mJy) None.

Definition round_world : World := mkWorld round_calculator [].

(** ** [Calculator._check_input_param_names]

    [fields] stands for the keys of [UserInput().__dict__] (the model is in
    [atlast_sc.models]); [user_input] is the dictionary, as its keys in
    iteration order, each with its entry. *)

(** The character [chr(34)] that the message puts around the name. *)
Definition double_quote : string :=
  String (Ascii.Ascii false true false false false true false false) EmptyString.

Definition invalid_parameter_message (param : string) : string :=
  double_quote +:+ param +:+ double_quote +:+ " is not a valid input parameter".

Fixpoint _check_input_param_names {A : Type} (fields : list string)
    (user_input : list (string * A)) : exn + () :=
  match user_input with
  | [] => inr ()
  | (param, _) :: rest =>
      if bool_decide (param ∈ fields)
      then _check_input_param_names fields rest
      else inl (ValueError (invalid_parameter_message param))
  end.

(** The names the getters of [UserInputParameters] read. *)
Definition sample_fields : list string :=
  ["t_int"; "sensitivity"; "bandwidth"; "obs_freq"; "n_pol"; "weather";
   "elevation"].

(** ** [atlast_sc/parameters/instrument_specific_parameters.py]

    [Finer._set_receiver_temp]: a function that reaches its end without a
    [return] gives [None]. *)
Definition Finer_set_receiver_temp (obs_freq : Quantity) : option Quantity :=
  let obs_freq := value obs_freq in
  if Rgtb obs_freq 120.0 && Rltb obs_freq 210.0 then Some (mkQ 45.0 Kelvin)
  else if Rgtb obs_freq 210.0 && Rltb obs_freq 360.0 then Some (mkQ 75.0 Kelvin)
  else None.

(** [Finer.__init__] binds [_T_rx], which the [T_rx] property returns. *)
Definition Finer_T_rx (obs_freq : Quantity) : option Quantity :=
  Finer_set_receiver_temp obs_freq.

(** ** [InstrumentSetupParameters]: the body of the [dish_radius] setter *)

Definition update_instrument_setup (f : InstrumentSetup -> InstrumentSetup)
    (ci : CalculationInput) : CalculationInput :=
  mkCalculationInput (user_input ci) (f (instrument_setup ci)) (ci_T_cmb ci).

Definition isp_dish_radius_body (v : Quantity) (cfg : Config) : Config :=
  update_calculation_inputs (update_instrument_setup (fun s =>
    mkInstrumentSetup (is_g s) (is_surface_rms s) (mkVWU v (unit_of v))
                      (is_T_amb s) (is_eta_eff s) (is_eta_ill s)
                      (is_eta_spill s) (is_eta_block s) (is_eta_pol s))) cfg.

(** ** Sequences of calls on a configuration

    The setter bodies that write the configuration, and [reset], as the
    steps of a run. *)

Inductive SetterCall : Type :=
  | set_t_int (v : Quantity)
  | set_bandwidth (v : Quantity)
  | set_obs_freq (v : Quantity)
  | set_n_pol (v : Quantity)
  | set_weather (v : Quantity)
  | set_elevation (v : Quantity)
  | set_dish_radius (v : Quantity).

Definition setter_body (s : SetterCall) : Config -> Config :=
  match s with
  | set_t_int v => uip_t_int_body v
  | set_bandwidth v => uip_bandwidth_body v
  | set_obs_freq v => uip_obs_freq_body v
  | set_n_pol v => uip_n_pol_body v
  | set_weather v => uip_weather_body v
  | set_elevation v => uip_elevation_body v
  | set_dish_radius v => isp_dish_radius_body v
  end.

Inductive ConfigOp : Type :=
  | op_setter (s : SetterCall)
  | op_reset.

Definition run_op (c : Config) (o : ConfigOp) : Config :=
  match o with
  | op_setter s => setter_body s c
  | op_reset => Config_reset c
  end.

Definition run_ops (ops : list ConfigOp) (c : Config) : Config :=
  foldl run_op c ops.

(** A temperature model that does not depend on the frequency. *)
Definition flat_Temperatures
    (obs_freq T_cmb T_amb g eta_eff T_atm : Quantity) (tau_atm : R)
    : TemperaturesT :=
  mkTemperatures (mkQ 50 Kelvin) (mkQ 80 Kelvin) T_atm.

(** The derived parameters held by a calculator are those of its inputs. *)
Definition derived_parameters_current
    (Efficiencies : Quantity -> Quantity -> Quantity -> Quantity -> Quantity ->
                    Quantity -> EfficienciesT)
    (atm : AtmosphereParams)
    (Temperatures : Quantity -> Quantity -> Quantity -> Quantity -> Quantity ->
                    Quantity -> R -> TemperaturesT)
    (c : Calculator) : Prop :=
  _dp c = _calculate_derived_parameters Efficiencies atm Temperatures c.

(** The values and the unit attributes that the getters of the two
    parameter classes read, in one list each: the seven user inputs
    first, then the instrument setup. *)
Definition all_values (cfg : Config) : list Quantity :=
  [uip_t_int cfg; uip_sensitivity cfg; uip_bandwidth cfg; uip_obs_freq cfg;
   uip_n_pol cfg; uip_weather cfg; uip_elevation cfg;
   isp_dish_radius cfg; isp_g cfg; isp_surface_rms cfg; isp_T_amb cfg;
   isp_eta_eff cfg; isp_eta_ill cfg; isp_eta_spill cfg; isp_eta_block cfg;
   isp_eta_pol cfg; isp_T_cmb cfg].

Definition all_units (cfg : Config) : list Unit :=
  let ui := user_input (calculation_inputs cfg) in
  let s := instrument_setup (calculation_inputs cfg) in
  [vwu_unit (ui_t_int ui); vwu_unit (ui_sensitivity ui);
   vwu_unit (ui_bandwidth ui); vwu_unit (ui_obs_freq ui);
   vwu_unit (ui_n_pol ui); vwu_unit (ui_weather ui);
   vwu_unit (ui_elevation ui);
   vwu_unit (is_dish_radius s); vwu_unit (is_g s); vwu_unit (is_surface_rms s);
   vwu_unit (is_T_amb s); vwu_unit (is_eta_eff s); vwu_unit (is_eta_ill s);
   vwu_unit (is_eta_spill s); vwu_unit (is_eta_block s);
   vwu_unit (is_eta_pol s); vwu_unit (ci_T_cmb (calculation_inputs cfg))].

(** Where a setter's parameter sits in the two lists, what it is given,
    and whether its body has the line that writes [.unit]. *)
Definition setter_index (s : SetterCall) : nat :=
  match s with
  | set_t_int _ => 0 | set_bandwidth _ => 2 | set_obs_freq _ => 3
  | set_n_pol _ => 4 | set_weather _ => 5 | set_elevation _ => 6
  | set_dish_radius _ => 7
  end%nat.

Definition setter_value (s : SetterCall) : Quantity :=
  match s with
  | set_t_int v | set_bandwidth v | set_obs_freq v | set_n_pol v
  | set_weather v | set_elevation v | set_dish_radius v => v
  end.

Definition setter_writes_unit (s : SetterCall) : bool :=
  match s with
  | set_n_pol _ | set_weather _ => false
  | _ => true
  end.

(** * Properties *)

Lemma Rltb_true x y : Rltb x y = true <-> x < y.
Proof. unfold Rltb. destruct (Rlt_dec x y); split; (lra || congruence || auto). Qed.

Lemma Rltb_false x y : Rltb x y = false <-> y <= x.
Proof. unfold Rltb. destruct (Rlt_dec x y); split; (lra || congruence || auto). Qed.

Lemma Rgtb_true x y : Rgtb x y = true <-> x > y.
Proof. unfold Rgtb. rewrite Rltb_true. lra. Qed.

Lemma Rgtb_false x y : Rgtb x y = false <-> x <= y.
Proof. unfold Rgtb. rewrite Rltb_false. lra. Qed.

Lemma Rgeb_true x y : Rgeb x y = true <-> x >= y.
Proof. unfold Rgeb. destruct (Rge_dec x y); split; (lra || congruence || auto). Qed.

Lemma Rgeb_false x y : Rgeb x y = false <-> x < y.
Proof. unfold Rgeb. destruct (Rge_dec x y); split; (lra || congruence || auto). Qed.

Lemma scale_pos u : 0 < scale u.
Proof.
  destruct u; simpl; try lra.
  apply Rdiv_lt_0_compat; [apply PI_RGT_0 | lra].
Qed.

Lemma si_convert q u : si (convert q u) = si q.
Proof.
  unfold convert, si; simpl. pose proof (scale_pos u). field. lra.
Qed.


(** ** Instrument matching *)

Lemma in_open_range_spec x range :
  in_open_range x range = true <-> fst range < x < snd range.
Proof.
  unfold in_open_range. rewrite andb_true_iff, Rgtb_true, Rltb_true. lra.
Qed.

Lemma elem_of_applicable_list x table (i : string) :
  i ∈ applicable_list x table <->
  exists ranges range,
    (i, ranges) ∈ table /\ range ∈ ranges /\ fst range < x < snd range.
Proof.
  unfold applicable_list.
  rewrite list_elem_of_In, in_flat_map. split.
  - intros ([name ranges] & Hentry & Hin). simpl in Hin.
    apply in_flat_map in Hin as (range & Hrange & Hin).
    destruct (in_open_range x range) eqn:E; simpl in Hin; [|tauto].
    destruct Hin as [<- | []].
    exists ranges, range. rewrite !list_elem_of_In.
    rewrite <- in_open_range_spec. auto.
  - intros (ranges & range & Hentry & Hrange & Hx).
    exists (i, ranges). rewrite list_elem_of_In in Hentry. rewrite list_elem_of_In in Hrange.
    split; [done|]. simpl. apply in_flat_map. exists range. split; [done|].
    apply in_open_range_spec in Hx. rewrite Hx. simpl. auto.
Qed.

(** C9. [find_applicable_instruments] returns exactly the instruments that
    are in the frequency-match list and in the bandwidth-match list, an
    instrument is in a match list exactly when one of its declared ranges
    contains the current magnitude strictly between its two end points,
    and for the range (120.0, 360.0) the values 120.0 and 360.0 do not
    match while 200.0 does. *)
Theorem find_applicable_instruments_spec (c : Calculator) (i : string) :
  let obs_freq := value (uip_obs_freq (_config c)) in
  let bandwidth := value (uip_bandwidth (_config c)) in
  (i ∈ find_applicable_instruments c <->
     i ∈ applicable_list obs_freq instrument_obs_freqs /\
     i ∈ applicable_list bandwidth instrument_bandw_vals) /\
  (i ∈ find_applicable_instruments c <->
     (exists ranges range, (i, ranges) ∈ instrument_obs_freqs /\
        range ∈ ranges /\ fst range < obs_freq < snd range) /\
     (exists ranges range, (i, ranges) ∈ instrument_bandw_vals /\
        range ∈ ranges /\ fst range < bandwidth < snd range)) /\
  in_open_range 120.0 (120.0, 360.0) = false /\
  in_open_range 360.0 (120.0, 360.0) = false /\
  in_open_range 200.0 (120.0, 360.0) = true.
Proof.
  intros obs_freq bandwidth.
  assert (Hset : i ∈ find_applicable_instruments c <->
     i ∈ applicable_list obs_freq instrument_obs_freqs /\
     i ∈ applicable_list bandwidth instrument_bandw_vals).
  { unfold find_applicable_instruments. fold obs_freq bandwidth.
    rewrite elem_of_intersection, !elem_of_list_to_set. tauto. }
  split; [exact Hset|]. split.
  - rewrite Hset, !elem_of_applicable_list. tauto.
  - split; [|split].
    + apply not_true_is_false. rewrite in_open_range_spec. simpl. lra.
    + apply not_true_is_false. rewrite in_open_range_spec. simpl. lra.
    + apply in_open_range_spec. simpl. lra.
Qed.

Lemma Rdiv_neq_compat (a b d : R) : d <> 0 -> a <> b -> a / d <> b / d.
Proof.
  intros Hd Hab Heq. apply Hab.
  apply (Rmult_eq_reg_r (/ d)); [exact Heq|]. now apply Rinv_neq_0_compat.
Qed.

(** ** The sensitivity setter of [UserInputParameters] *)

Lemma uip_sensitivity_body_raises v w :
  uip_sensitivity_body v w =
  (inl (AttributeError "'property' object has no attribute 'user_input'"), w).
Proof. reflexivity. Qed.

(** C10. For every value, the [sensitivity] setter of
    [UserInputParameters] ends in an exception and leaves the whole state,
    and so the stored sensitivity of the instance's config, as it was; when
    the value passes the check the exception is the [AttributeError] of
    the lookup through the [Config] class object. *)
Theorem uip_set_sensitivity_never_commits
    (field_check : string -> Quantity -> option exn) (v : Quantity) (w : World) :
  uip_set_sensitivity field_check v w =
    (inl (match field_check "sensitivity" v with
          | Some e => e
          | None => AttributeError "'property' object has no attribute 'user_input'"
          end), w) /\
  uip_sensitivity (_config (self (snd (uip_set_sensitivity field_check v w)))) =
    uip_sensitivity (_config (self w)).
Proof.
  assert (H : uip_set_sensitivity field_check v w =
    (inl (match field_check "sensitivity" v with
          | Some e => e
          | None => AttributeError "'property' object has no attribute 'user_input'"
          end), w)).
  { unfold uip_set_sensitivity, validate_value, DataHelper_validate, bind.
    destruct (field_check "sensitivity" v); reflexivity. }
  split; [exact H|]. rewrite H. reflexivity.
Qed.

(** ** [Config.reset] *)

(** The first [reset] after construction gives back the constructed
    values, whatever was written to the live object before. *)
Lemma Config_reset_first (ci : CalculationInput) (f : CalculationInput -> CalculationInput) :
  calculation_inputs (Config_reset (update_calculation_inputs f (Config_init ci))) = ci.
Proof. reflexivity. Qed.

(** C3. [reset] binds the live inputs to the snapshot object itself: after
    a [reset], a write to [t_int] lands in the object [_original_inputs]
    refers to, and the next [reset] returns the written value, not the
    value the configuration was constructed with. *)
Theorem Config_reset_shares_snapshot (ci : CalculationInput) (v : Quantity) :
  let cfg1 := Config_reset (Config_init ci) in
  let cfg2 := uip_t_int_body v cfg1 in
  let cfg3 := Config_reset cfg2 in
  _calculation_inputs cfg1 = _original_inputs cfg1 /\
  original_inputs cfg1 = ci /\
  vwu_value (ui_t_int (user_input (original_inputs cfg2))) = v /\
  uip_t_int cfg3 = v /\
  vwu_unit (ui_t_int (user_input (calculation_inputs cfg3))) = unit_of v.
Proof. repeat split. Qed.

(** ** [Calculator.reset] *)

(** C4. [reset] rebinds the inputs and leaves [_dp] as it was: the
    derived parameters it computes are dropped, so the snapshot read by
    later calculations is the one from before the call. *)
Theorem reset_keeps_derived_parameters
    (Efficiencies : Quantity -> Quantity -> Quantity -> Quantity -> Quantity ->
                    Quantity -> EfficienciesT)
    (atm : AtmosphereParams)
    (Temperatures : Quantity -> Quantity -> Quantity -> Quantity -> Quantity ->
                    Quantity -> R -> TemperaturesT)
    (w : World) :
  reset Efficiencies atm Temperatures w =
    (inr (), mkWorld (set_config (Config_reset (_config (self w))) (self w))
                     (warnings w)) /\
  _dp (self (snd (reset Efficiencies atm Temperatures w))) = _dp (self w).
Proof. split; reflexivity. Qed.

Lemma uip_set_t_int_eval
    (field_check : string -> Quantity -> option exn) (v : Quantity) (w : World) :
  uip_set_t_int field_check v w =
  match field_check "t_int" v with
  | Some e => (inl e, w)
  | None => (inr (), mkWorld (set_config (uip_t_int_body v (_config (self w)))
                                         (self w)) (warnings w))
  end.
Proof.
  unfold uip_set_t_int, validate_value, DataHelper_validate, bind.
  destruct (field_check "t_int" v); reflexivity.
Qed.

(** The same on a calculator, through its own operations: reset, a valid
    integration time of 200 s, reset.  The constructed 100 s is gone. *)
Lemma reset_twice_keeps_written_t_int :
  let w0 := sample_world false in
  let w1 := snd (reset sample_Efficiencies sample_atm sample_Temperatures w0) in
  let w2 := snd (uip_set_t_int sample_field_check (mkQ 200 sec) w1) in
  let w3 := snd (reset sample_Efficiencies sample_atm sample_Temperatures w2) in
  uip_t_int (_config (self w0)) = mkQ 100 sec /\
  uip_t_int (_config (self w1)) = mkQ 100 sec /\
  uip_t_int (_config (self w3)) = mkQ 200 sec /\
  vwu_value (ui_t_int (user_input (original_inputs (_config (self w3))))) =
    mkQ 200 sec.
Proof.
  intros w0 w1 w2 w3.
  assert (H : sample_field_check "t_int" (mkQ 200 sec) = None).
  { unfold sample_field_check. cbn [String.eqb Ascii.eqb Bool.eqb].
    replace (Rltb _ 1) with false; [reflexivity|].
    symmetry. apply Rltb_false. unfold si. simpl. lra. }
  unfold w3, w2. rewrite uip_set_t_int_eval, H. repeat split.
Qed.

Lemma reset_leaves_stale_sefd :
  let w1 := snd (uip_set_obs_freq sample_field_check sample_Efficiencies sample_atm
                   sample_Temperatures (mkQ 200 GHz) (sample_world false)) in
  let w2 := snd (reset sample_Efficiencies sample_atm sample_Temperatures w1) in
  uip_obs_freq (_config (self w2)) = mkQ 100 GHz /\
  si (dp_sefd (_dp (self w2))) <>
  si (dp_sefd (_calculate_derived_parameters sample_Efficiencies sample_atm
                 sample_Temperatures (self w2))).
Proof.
  intros w1 w2. split; [reflexivity|].
  cbv [w2 w1 uip_set_obs_freq validate_and_update_params DataHelper_validate
       bind sample_field_check String.eqb Ascii.eqb Bool.eqb].
  simpl. unfold _calculate_sefd, si. simpl.
  rewrite !Rmult_1_r.
  apply Rdiv_neq_compat.
  - pose proof PI_RGT_0. nra.
  - unfold k_B. lra.
Qed.

(** ** What the two calculations evaluate to *)

Section Calculations.

Variable field_check : string -> Quantity -> option exn.

Lemma calculate_sensitivity_given_update (t : Quantity) (w : World) :
  calculate_sensitivity field_check (Some t) true w =
  match field_check "t_int" t with
  | Some e => (inl e, w)
  | None =>
      let c1 := set_config (uip_t_int_body t (_config (self w))) (self w) in
      let s := rescale_sensitivity (sensitivity_formula c1 t) in
      (inr s, mkWorld (setattr_sensitivity s c1) (warnings w))
  end.
Proof.
  unfold calculate_sensitivity, uip_set_t_int, validate_value,
    DataHelper_validate, bind.
  destruct (field_check "t_int" t); reflexivity.
Qed.

Lemma calculate_sensitivity_given_keep (t : Quantity) (w : World) :
  calculate_sensitivity field_check (Some t) false w =
  match field_check "t_int" t with
  | Some e => (inl e, w)
  | None => (inr (rescale_sensitivity (sensitivity_formula (self w) t)), w)
  end.
Proof.
  unfold calculate_sensitivity, DataHelper_validate, bind.
  destruct (field_check "t_int" t); reflexivity.
Qed.

Lemma calculate_sensitivity_stored_update (w : World) :
  calculate_sensitivity field_check None true w =
  let s := rescale_sensitivity
             (sensitivity_formula (self w) (uip_t_int (_config (self w)))) in
  (inr s, mkWorld (setattr_sensitivity s (self w)) (warnings w)).
Proof. reflexivity. Qed.

Lemma calculate_sensitivity_stored_keep (w : World) :
  calculate_sensitivity field_check None false w =
  (inr (rescale_sensitivity
          (sensitivity_formula (self w) (uip_t_int (_config (self w))))), w).
Proof. reflexivity. Qed.

(** The conversion of line 140 succeeds on the result for a validated
    sensitivity and for a flux density, and fails otherwise. *)
Lemma to_t_int_quantity (validated : bool) (c : Calculator) (s : Quantity) :
  to (t_int_quantity validated c s) sec =
  if validated || is_flux_density s
  then inr (convert (t_int_formula c s) sec)
  else inl (UnitConversionError SI_other sec).
Proof.
  unfold t_int_quantity. destruct (validated || is_flux_density s); reflexivity.
Qed.

Lemma t_int_quantity_time (validated : bool) (c : Calculator) (s : Quantity) :
  validated || is_flux_density s = true ->
  t_int_quantity validated c s = t_int_formula c s.
Proof. unfold t_int_quantity. intros ->. reflexivity. Qed.

(** With [update_calculator=True] the given sensitivity is bound first;
    the call raises at line 140 when it is not a flux density. *)
Lemma calculate_t_integration_given_update (s : Quantity) (w : World) :
  calculate_t_integration field_check (Some s) true w =
  let c1 := setattr_sensitivity s (self w) in
  if is_flux_density s then
    let t := rescale_t_int (t_int_formula c1 s) in
    (inr t, mkWorld (setattr_t_int t c1) (warnings w))
  else (inl (UnitConversionError SI_other sec), mkWorld c1 (warnings w)).
Proof.
  unfold calculate_t_integration, bind, lift. cbn [modify_self get_self put_self
    bind ret fst snd self warnings]. unfold modify_self, bind, get_self, put_self, ret.
  cbn [fst snd self warnings]. rewrite to_t_int_quantity. cbn [orb].
  unfold t_int_quantity. cbn [orb].
  destruct (is_flux_density s); reflexivity.
Qed.

Lemma calculate_t_integration_given_keep (s : Quantity) (w : World) :
  calculate_t_integration field_check (Some s) false w =
  match field_check "sensitivity" s with
  | Some e => (inl e, w)
  | None => (inr (rescale_t_int (t_int_formula (self w) s)), w)
  end.
Proof.
  unfold calculate_t_integration, DataHelper_validate, bind.
  destruct (field_check "sensitivity" s); reflexivity.
Qed.

Lemma calculate_t_integration_stored_update (w : World) :
  calculate_t_integration field_check None true w =
  if is_flux_density (sensitivity (self w)) then
    let t := rescale_t_int (t_int_formula (self w) (sensitivity (self w))) in
    (inr t, mkWorld (setattr_t_int t (self w)) (warnings w))
  else (inl (UnitConversionError SI_other sec), w).
Proof.
  unfold calculate_t_integration, bind, lift, get_self, ret.
  cbn [fst snd]. rewrite to_t_int_quantity. cbn [orb].
  unfold t_int_quantity. cbn [orb].
  destruct (is_flux_density (sensitivity (self w))); reflexivity.
Qed.

Lemma calculate_t_integration_stored_keep (w : World) :
  calculate_t_integration field_check None false w =
  if is_flux_density (sensitivity (self w)) then
    (inr (rescale_t_int (t_int_formula (self w) (sensitivity (self w)))), w)
  else (inl (UnitConversionError SI_other sec), w).
Proof.
  unfold calculate_t_integration, bind, lift, get_self, ret.
  cbn [fst snd]. rewrite to_t_int_quantity. cbn [orb].
  unfold t_int_quantity. cbn [orb].
  destruct (is_flux_density (sensitivity (self w))); reflexivity.
Qed.

(** Every returned sensitivity is a rescaled value of the formula, and
    likewise for the integration time. *)
Lemma calculate_sensitivity_returns_rescaled arg upd w r w' :
  calculate_sensitivity field_check arg upd w = (inr r, w') ->
  exists c t, r = rescale_sensitivity (sensitivity_formula c t).
Proof.
  destruct arg as [t|], upd.
  - rewrite calculate_sensitivity_given_update.
    destruct (field_check "t_int" t); [discriminate|].
    intros [= <- _]. eauto.
  - rewrite calculate_sensitivity_given_keep.
    destruct (field_check "t_int" t); [discriminate|].
    intros [= <- _]. eauto.
  - rewrite calculate_sensitivity_stored_update. intros [= <- _]. eauto.
  - rewrite calculate_sensitivity_stored_keep. intros [= <- _]. eauto.
Qed.

Lemma calculate_t_integration_returns_rescaled arg upd w r w' :
  calculate_t_integration field_check arg upd w = (inr r, w') ->
  exists c s, r = rescale_t_int (t_int_formula c s).
Proof.
  destruct arg as [s|], upd.
  - rewrite calculate_t_integration_given_update. cbv zeta.
    destruct (is_flux_density s); [|discriminate].
    intros [= <- _]. eauto.
  - rewrite calculate_t_integration_given_keep.
    destruct (field_check "sensitivity" s); [discriminate|].
    intros [= <- _]. eauto.
  - rewrite calculate_t_integration_stored_update.
    destruct (is_flux_density _); [|discriminate].
    intros [= <- _]. eauto.
  - rewrite calculate_t_integration_stored_keep.
    destruct (is_flux_density _); [|discriminate].
    intros [= <- _]. eauto.
Qed.

End Calculations.

(** A rescaled flux density is a flux density, and the radiometer value is
    one. *)
Lemma rescale_sensitivity_is_flux_density (q : Quantity) :
  is_flux_density q = true -> is_flux_density (rescale_sensitivity q) = true.
Proof.
  intros H. unfold rescale_sensitivity. cbv zeta.
  repeat match goal with |- context [if ?b then _ else _] => destruct b end;
    (reflexivity || exact H).
Qed.

Lemma calculated_sensitivity_is_flux_density (c : Calculator) (t : Quantity) :
  is_flux_density (rescale_sensitivity (sensitivity_formula c t)) = true.
Proof. apply rescale_sensitivity_is_flux_density. reflexivity. Qed.

(** ** Unit tiering *)

Lemma Rltb_ext (a b c d : R) : (a < b <-> c < d) -> Rltb a b = Rltb c d.
Proof.
  intros H. unfold Rltb.
  destruct (Rlt_dec a b), (Rlt_dec c d); tauto.
Qed.

Lemma Rgeb_negb_Rltb (a b : R) : Rgeb a b = negb (Rltb a b).
Proof.
  unfold Rgeb, Rltb.
  destruct (Rge_dec a b), (Rlt_dec a b); simpl; auto; lra.
Qed.

Lemma value_convert (q : Quantity) (u : Unit) : value (convert q u) = si q / scale u.
Proof. reflexivity. Qed.

(** Comparing a converted quantity with [k*u] compares SI magnitudes. *)
Lemma Qlt_convert (q : Quantity) (k : R) (u : Unit) :
  Qlt (convert q u) (mkQ k u) = Rltb (si q) (k * scale u).
Proof.
  unfold Qlt. apply Rltb_ext. simpl. unfold si at 2. simpl.
  pose proof (scale_pos u) as Hu.
  replace (k * scale u / scale u) with k by (field; lra).
  split; intros H.
  - apply (Rmult_lt_compat_r (scale u)) in H; [|exact Hu].
    replace (si q / scale u * scale u) with (si q) in H by (field; lra). exact H.
  - apply (Rmult_lt_reg_r (scale u)); [exact Hu|].
    replace (si q / scale u * scale u) with (si q) by (field; lra). exact H.
Qed.

Lemma Qge_convert (q : Quantity) (k : R) (u : Unit) :
  Qge (convert q u) (mkQ k u) = negb (Rltb (si q) (k * scale u)).
Proof.
  unfold Qge. rewrite Rgeb_negb_Rltb. f_equal. apply (Qlt_convert q k u).
Qed.


Lemma rescale_sensitivity_si (q : Quantity) : si (rescale_sensitivity q) = si q.
Proof.
  unfold rescale_sensitivity.
  repeat match goal with |- context [if ?b then _ else _] => destruct b end;
    rewrite ?si_convert; reflexivity.
Qed.


Lemma rescale_t_int_si (q : Quantity) : si (rescale_t_int q) = si q.
Proof.
  unfold rescale_t_int.
  repeat match goal with |- context [if ?b then _ else _] => destruct b end;
    rewrite ?si_convert; reflexivity.
Qed.


(** ** Committing a calculated value *)

(** The [t_int] setter body writes [t_int] and nothing else. *)
Lemma uip_t_int_body_frame (t : Quantity) (cfg : Config) :
  uip_t_int (uip_t_int_body t cfg) = t /\
  uip_n_pol (uip_t_int_body t cfg) = uip_n_pol cfg /\
  uip_bandwidth (uip_t_int_body t cfg) = uip_bandwidth cfg /\
  uip_sensitivity (uip_t_int_body t cfg) = uip_sensitivity cfg.
Proof.
  destruct cfg as [h live orig]. destruct live; repeat split.
Qed.

(** C1. With an integration time that passes the check,
    [calculate_sensitivity(t_int, update_calculator=True)] stores the
    integration time, returns the radiometer value
    sefd / (eta_s * sqrt(n_pol * bandwidth * t_int)) rescaled to its tier,
    and binds it to the [sensitivity] attribute of the calculator object;
    the sensitivity held in the configuration is not written and no check
    of the result is run. *)
Theorem calculate_sensitivity_commits_to_attribute
    (field_check : string -> Quantity -> option exn) (t : Quantity) (w : World) :
  field_check "t_int" t = None ->
  let c := self w in
  let r := calculate_sensitivity field_check (Some t) true w in
  let c1 := set_config (uip_t_int_body t (_config c)) c in
  let s := rescale_sensitivity (sensitivity_formula c1 t) in
  r = (inr s, mkWorld (setattr_sensitivity s c1) (warnings w)) /\
  si s = si (dp_sefd (_dp c)) /
         (dp_eta_s (_dp c) *
          sqrt (si (uip_n_pol (_config c)) * si (uip_bandwidth (_config c)) * si t)) /\
  sensitivity (self (snd r)) = s /\
  uip_t_int (_config (self (snd r))) = t /\
  uip_sensitivity (_config (self (snd r))) = uip_sensitivity (_config c).
Proof.
  intros Hcheck c r c1 s.
  assert (Hr : r = (inr s, mkWorld (setattr_sensitivity s c1) (warnings w))).
  { unfold r. rewrite calculate_sensitivity_given_update, Hcheck. reflexivity. }
  split; [exact Hr|]. rewrite Hr. simpl.
  split; [|split; [|split]].
  - unfold s. rewrite rescale_sensitivity_si.
    destruct (uip_t_int_body_frame t (_config c)) as (_ & Hn & Hb & _).
    unfold sensitivity_formula, si at 1. simpl. rewrite Rmult_1_r, Hn, Hb.
    reflexivity.
  - reflexivity.
  - apply uip_t_int_body_frame.
  - apply uip_t_int_body_frame.
Qed.

(** C2. With [update_calculator=True] neither calculation emits a warning
    or raises on its result: every result that
    [calculate_sensitivity] returns is bound to the calculator attribute
    [sensitivity], and every result that [calculate_t_integration]
    returns to the attribute [t_int], whatever the declared check of that
    parameter says about it; the configuration is not written.
    [calculate_t_integration] returns a result whenever the sensitivity it
    uses (the argument, else the attribute) is a flux density; a
    sensitivity of another dimension has not been checked either, it is
    bound to the attribute and the conversion of line 140 raises
    [UnitConversionError] before anything is committed to [t_int]. *)
Theorem calculated_value_is_never_checked
    (field_check : string -> Quantity -> option exn)
    (arg : option Quantity) (w : World) :
  let rs := calculate_sensitivity field_check arg true w in
  let rt := calculate_t_integration field_check arg true w in
  let used := match arg with Some s => s | None => sensitivity (self w) end in
  warnings (snd rs) = warnings w /\
  warnings (snd rt) = warnings w /\
  (forall s, fst rs = inr s -> sensitivity (self (snd rs)) = s) /\
  (forall t, fst rt = inr t -> t_int (self (snd rt)) = Some t) /\
  _config (self (snd rt)) = _config (self w) /\
  (is_flux_density used = true -> exists t, fst rt = inr t) /\
  (is_flux_density used = false ->
     fst rt = inl (UnitConversionError SI_other sec) /\
     sensitivity (self (snd rt)) = used /\
     t_int (self (snd rt)) = t_int (self w)).
Proof.
  intros rs rt used. unfold rs, rt, used. clear rs rt used.
  destruct arg as [q|].
  - rewrite calculate_sensitivity_given_update,
      calculate_t_integration_given_update. cbv zeta.
    assert (Hs : forall r : (exn + Quantity) * World,
      r = match field_check "t_int" q with
          | Some e => (inl e, w)
          | None =>
              (inr (rescale_sensitivity (sensitivity_formula
                      (set_config (uip_t_int_body q (_config (self w))) (self w)) q)),
               mkWorld (setattr_sensitivity
                          (rescale_sensitivity (sensitivity_formula
                             (set_config (uip_t_int_body q (_config (self w))) (self w)) q))
                          (set_config (uip_t_int_body q (_config (self w))) (self w)))
                       (warnings w))
          end ->
      warnings (snd r) = warnings w /\
      (forall s, fst r = inr s -> sensitivity (self (snd r)) = s)).
    { intros r ->. destruct (field_check "t_int" q); simpl.
      - split; [reflexivity | discriminate].
      - split; [reflexivity | congruence]. }
    destruct (Hs _ eq_refl) as [Hw Hb].
    split; [exact Hw|]. clear Hs Hw.
    destruct (is_flux_density q); simpl.
    + repeat split; try exact Hb; try congruence; eauto.
    + repeat split; try exact Hb; try discriminate.
  - rewrite calculate_sensitivity_stored_update,
      calculate_t_integration_stored_update. cbv zeta.
    destruct (is_flux_density (sensitivity (self w))); simpl.
    + repeat split; try congruence; eauto.
    + repeat split; try congruence; try discriminate.
Qed.

Lemma sample_field_check_t_int (q : Quantity) :
  sample_field_check "t_int" q =
  if Rltb (si q) 1
  then Some (ValueOutOfRangeException "t_int"
               "The value must be greater than or equal to 1 s.")
  else None.
Proof. reflexivity. Qed.

Lemma sample_field_check_sensitivity (q : Quantity) :
  sample_field_check "sensitivity" q =
  if Rgtb (si q) 0 then None
  else Some (ValueOutOfRangeException "sensitivity"
               "The value must be greater than 0 Jy.").
Proof. reflexivity. Qed.

(** An integration time below the sample lower bound of 1 s is bound to
    the attribute all the same, and nothing is reported. *)
Lemma rejected_t_int_is_bound :
  let r := calculate_t_integration sample_field_check (Some (mkQ 1000 Jy)) true
             round_world in
  exists t, fst r = inr t /\
    sample_field_check "t_int" t =
      Some (ValueOutOfRangeException "t_int"
              "The value must be greater than or equal to 1 s.") /\
    t_int (self (snd r)) = Some t /\
    warnings (snd r) = [].
Proof.
  intros r. unfold r. rewrite calculate_t_integration_given_update.
  change (is_flux_density (mkQ 1000 Jy)) with true. cbv iota zeta.
  eexists. split; [reflexivity|]. split; [|split; reflexivity].
  rewrite sample_field_check_t_int.
  replace (Rltb _ 1) with true; [reflexivity|].
  symmetry. apply Rltb_true. rewrite rescale_t_int_si.
  unfold t_int_formula, si. simpl. lra.
Qed.

Lemma sample_t_int_100_accepted :
  sample_field_check "t_int" (mkQ 100 sec) = None.
Proof.
  rewrite sample_field_check_t_int.
  replace (Rltb _ 1) with false; [reflexivity|].
  symmetry. apply Rltb_false. unfold si. simpl. lra.
Qed.

Lemma calculate_sensitivity_commits_to_attribute_witness :
  sample_field_check "t_int" (mkQ 100 sec) = None /\
  uip_sensitivity
    (_config (self (snd (calculate_sensitivity sample_field_check
                           (Some (mkQ 100 sec)) true round_world)))) =
  mkQ 3 mJy.
Proof.
  split; [exact sample_t_int_100_accepted|].
  destruct (calculate_sensitivity_commits_to_attribute sample_field_check
              (mkQ 100 sec) round_world sample_t_int_100_accepted)
    as (_ & _ & _ & _ & H).
  rewrite H. reflexivity.
Defined.

(** ** Round trip *)

Lemma sensitivity_formula_si (c : Calculator) (t : Quantity) :
  si (sensitivity_formula c t) =
  si (dp_sefd (_dp c)) /
  (dp_eta_s (_dp c) *
   sqrt (si (uip_n_pol (_config c)) * si (uip_bandwidth (_config c)) * si t)).
Proof. unfold sensitivity_formula, si at 1. simpl. apply Rmult_1_r. Qed.

Lemma t_int_formula_si (c : Calculator) (s : Quantity) :
  si (t_int_formula c s) =
  (si (dp_sefd (_dp c)) / (si s * dp_eta_s (_dp c))) ^ 2 /
  (si (uip_n_pol (_config c)) * si (uip_bandwidth (_config c))).
Proof. unfold t_int_formula, si at 1. simpl scale. apply Rmult_1_r. Qed.

Lemma sensitivity_formula_pos (c : Calculator) (t : Quantity) :
  0 < si (dp_sefd (_dp c)) -> 0 < dp_eta_s (_dp c) ->
  0 < si (uip_n_pol (_config c)) -> 0 < si (uip_bandwidth (_config c)) ->
  0 < si t ->
  0 < si (sensitivity_formula c t).
Proof.
  intros Hs He Hn Hb Ht. rewrite sensitivity_formula_si.
  apply Rdiv_lt_0_compat; [exact Hs|].
  apply Rmult_lt_0_compat; [exact He|].
  apply sqrt_lt_R0.
  apply Rmult_lt_0_compat; [apply Rmult_lt_0_compat|]; assumption.
Qed.

(** The algebra of the round trip: solving the radiometer equation for the
    time undoes solving it for the sensitivity. *)
Lemma radiometer_round_trip (sefd eta n b t : R) :
  0 < sefd -> 0 < eta -> 0 < n -> 0 < b -> 0 < t ->
  (sefd / (sefd / (eta * sqrt (n * b * t)) * eta)) ^ 2 / (n * b) = t.
Proof.
  intros Hs He Hn Hb Ht.
  assert (Hnbt : 0 < n * b * t)
    by (apply Rmult_lt_0_compat; [apply Rmult_lt_0_compat|]; assumption).
  pose proof (sqrt_lt_R0 _ Hnbt) as Hx.
  pose proof (sqrt_sqrt (n * b * t) (Rlt_le _ _ Hnbt)) as Hxx.
  set (x := sqrt (n * b * t)) in *.
  replace (sefd / (sefd / (eta * x) * eta)) with x by (field; lra).
  simpl. rewrite Rmult_1_r, Hxx. field. lra.
Qed.

(** C5. For a calculator with positive SEFD, system efficiency, number of
    polarisations and bandwidth, and a positive integration time that
    passes the check, [calculate_sensitivity] without update followed by
    [calculate_t_integration] without update on its result leaves the
    calculator as it was and returns the integration time it started from
    (as a physical value; the arithmetic is exact on the reals). *)
Theorem round_trip
    (field_check : string -> Quantity -> option exn) (t : Quantity) (w : World) :
  let c := self w in
  0 < si (dp_sefd (_dp c)) -> 0 < dp_eta_s (_dp c) ->
  0 < si (uip_n_pol (_config c)) -> 0 < si (uip_bandwidth (_config c)) ->
  0 < si t ->
  field_check "t_int" t = None ->
  field_check "sensitivity" (rescale_sensitivity (sensitivity_formula c t)) = None ->
  exists s t',
    calculate_sensitivity field_check (Some t) false w = (inr s, w) /\
    calculate_t_integration field_check (Some s) false w = (inr t', w) /\
    si t' = si t.
Proof.
  intros c Hs He Hn Hb Ht Hct Hcs.
  exists (rescale_sensitivity (sensitivity_formula c t)).
  exists (rescale_t_int
            (t_int_formula c (rescale_sensitivity (sensitivity_formula c t)))).
  split; [|split].
  - rewrite calculate_sensitivity_given_keep, Hct. reflexivity.
  - rewrite calculate_t_integration_given_keep, Hcs. reflexivity.
  - rewrite rescale_t_int_si, t_int_formula_si, rescale_sensitivity_si,
      sensitivity_formula_si.
    apply radiometer_round_trip; assumption.
Qed.

Lemma round_calculator_positive :
  0 < si (dp_sefd (_dp round_calculator)) /\
  0 < dp_eta_s (_dp round_calculator) /\
  0 < si (uip_n_pol (_config round_calculator)) /\
  0 < si (uip_bandwidth (_config round_calculator)).
Proof. unfold si. simpl. repeat split; lra. Qed.

Lemma round_trip_witness :
  exists s t',
    calculate_sensitivity sample_field_check (Some (mkQ 100 sec)) false
      round_world = (inr s, round_world) /\
    calculate_t_integration sample_field_check (Some s) false round_world =
      (inr t', round_world) /\
    si t' = si (mkQ 100 sec).
Proof.
  destruct round_calculator_positive as (Hs & He & Hn & Hb).
  assert (Ht : 0 < si (mkQ 100 sec)) by (unfold si; simpl; lra).
  apply (round_trip sample_field_check (mkQ 100 sec) round_world
           Hs He Hn Hb Ht sample_t_int_100_accepted).
  rewrite sample_field_check_sensitivity.
  replace (Rgtb _ 0) with true; [reflexivity|].
  symmetry. apply Rgtb_true. rewrite rescale_sensitivity_si.
  apply Rlt_gt. apply sensitivity_formula_pos; assumption.
Defined.

(** On the round-number calculator the value returned for 100 s is bound
    to the attribute, and the configuration still holds 3 mJy, which is a
    different flux density. *)
Lemma calculate_sensitivity_leaves_store_behind :
  let r := calculate_sensitivity sample_field_check (Some (mkQ 100 sec)) true
             round_world in
  exists s, fst r = inr s /\
    sensitivity (self (snd r)) = s /\
    uip_sensitivity (_config (self (snd r))) = mkQ 3 mJy /\
    si s <> si (mkQ 3 mJy).
Proof.
  intros r. unfold r.
  rewrite calculate_sensitivity_given_update, sample_t_int_100_accepted.
  eexists. split; [reflexivity|]. split; [reflexivity|].
  split; [reflexivity|].
  rewrite rescale_sensitivity_si, sensitivity_formula_si. unfold si. simpl.
  set (y := 2 * 1 * (7.5 * 1e9) * (100 * 1)).
  assert (Hy : 0 <= y) by (unfold y; lra).
  pose proof (sqrt_sqrt y Hy) as Hxx.
  assert (Hx : 0 < sqrt y) by (apply sqrt_lt_R0; unfold y; lra).
  set (x := sqrt y) in *. intros H.
  assert (Hlin : 1e-24 * 1 = 3 * 1e-29 * (0.98 * x)).
  { rewrite <- H. field. lra. }
  assert (Hval : x = 1e-24 / (3 * 1e-29 * 0.98)) by lra.
  rewrite Hval in Hxx. unfold y in Hxx. lra.
Qed.

(** ** The finetune sum *)

Lemma adjacent_cons {A} (f : R -> R -> A) (x y : R) (l : list R) :
  zip_with f (tail (x :: y :: l)) (removelast (x :: y :: l)) =
  f y x :: zip_with f (tail (y :: l)) (removelast (y :: l)).
Proof. reflexivity. Qed.

Lemma obs_band_list_cons (x y : R) (l : list R) :
  obs_band_list (x :: y :: l) = (y - x) :: obs_band_list (y :: l).
Proof. apply adjacent_cons. Qed.

Lemma obs_mid_list_cons (x y : R) (l : list R) :
  obs_mid_list (x :: y :: l) = ((y + x) * 0.50) :: obs_mid_list (y :: l).
Proof. apply (adjacent_cons (fun a b => (a + b) * 0.50)). Qed.

Lemma last_cons_default (l : list R) (x y : R) :
  List.last (y :: l) x = List.last l y.
Proof.
  revert x y. induction l as [|z l IH]; intros x y; [reflexivity|].
  change (List.last (y :: z :: l) x) with (List.last (z :: l) x).
  rewrite IH. symmetry. apply IH.
Qed.

Lemma np_sum_cons (x : R) (l : list R) : np_sum (x :: l) = x + np_sum l.
Proof. reflexivity. Qed.

(** The channel widths add up to the distance between the two ends. *)
Lemma np_sum_obs_band_list (l : list R) (x : R) :
  np_sum (obs_band_list (x :: l)) = List.last l x - x.
Proof.
  revert x. induction l as [|y l IH]; intros x.
  - simpl. lra.
  - rewrite obs_band_list_cons, np_sum_cons, IH.
    rewrite last_cons_default. lra.
Qed.

Lemma last_app_singleton (l : list R) (x d : R) : List.last (l ++ [x]) d = x.
Proof. apply last_last. Qed.

(** Strictly increasing frequencies give positive channel widths, one per
    channel midpoint. *)
Lemma obs_band_list_positive (F : R -> R) (P : R -> Prop) (l : list R) :
  StronglySorted Rlt l ->
  Forall P (map F (obs_mid_list l)) ->
  Forall2 (fun b s => 0 < b /\ P s) (obs_band_list l) (map F (obs_mid_list l)).
Proof.
  intros Hsorted. induction Hsorted as [|x l Hl IH Hx]; intros HP.
  - constructor.
  - destruct l as [|y l]; [constructor|].
    rewrite obs_band_list_cons, obs_mid_list_cons in *. simpl map in *.
    apply Forall_cons_1 in HP as [HPy HP].
    constructor.
    + split; [|exact HPy]. apply Forall_cons_1 in Hx as [Hxy _]. lra.
    + apply IH. exact HP.
Qed.

(** Each term of the sum is bounded through the bounds of the channel
    SEFDs. *)
Lemma finetune_sum_bounds (k m M : R) (bs ss : list R) :
  0 < k -> 0 < m ->
  Forall2 (fun b s => 0 < b /\ m <= s <= M) bs ss ->
  np_sum bs * k / M ^ 2 <= np_sum (zip_with (fun b s => b * k / s ^ 2) bs ss)
    <= np_sum bs * k / m ^ 2.
Proof.
  intros Hk Hm H. induction H as [|b s bs ss (Hb & Hms & HsM) _ IH].
  - simpl. lra.
  - cbn [zip_with]. rewrite !np_sum_cons.
    assert (Hs : 0 < s) by lra. assert (HM : 0 < M) by lra.
    assert (Hbk : 0 < b * k) by (apply Rmult_lt_0_compat; assumption).
    assert (Hlo : b * k / M ^ 2 <= b * k / s ^ 2).
    { apply Rmult_le_compat_l; [lra|].
      apply Rinv_le_contravar; [nra|]. nra. }
    assert (Hhi : b * k / s ^ 2 <= b * k / m ^ 2).
    { apply Rmult_le_compat_l; [lra|].
      apply Rinv_le_contravar; [nra|]. nra. }
    replace ((b + np_sum bs) * k / M ^ 2)
      with (b * k / M ^ 2 + np_sum bs * k / M ^ 2) by (field; nra).
    replace ((b + np_sum bs) * k / m ^ 2)
      with (b * k / m ^ 2 + np_sum bs * k / m ^ 2) by (field; nra).
    lra.
Qed.

(** The effective SEFD of positive channels lies between any bounds of
    the channel SEFDs. *)
Lemma effective_sefd_between (B k m M : R) (bs ss : list R) :
  0 < B -> 0 < k -> 0 < m ->
  np_sum bs * k = B ->
  Forall2 (fun b s => 0 < b /\ m <= s <= M) bs ss ->
  m <= sqrt (B / np_sum (zip_with (fun b s => b * k / s ^ 2) bs ss)) <= M.
Proof.
  intros HB Hk Hm Hsum H.
  pose proof (finetune_sum_bounds k m M bs ss Hk Hm H) as [Hlo Hhi].
  rewrite Hsum in Hlo, Hhi.
  set (S := np_sum (zip_with (fun b s => b * k / s ^ 2) bs ss)) in *.
  assert (HmM : m <= M).
  { destruct H as [|b s ? ? (_ & ? & ?) _]; [simpl in Hsum; lra|lra]. }
  assert (HM : 0 < M) by lra.
  assert (HS : 0 < S).
  { apply Rlt_le_trans with (B / M ^ 2); [|exact Hlo].
    apply Rdiv_lt_0_compat; [exact HB|nra]. }
  assert (Hm2 : m ^ 2 <= B / S).
  { apply (Rmult_le_reg_r S); [exact HS|].
    replace (B / S * S) with B by (field; lra).
    apply (Rmult_le_compat_l (m ^ 2)) in Hhi; [|nra].
    replace (m ^ 2 * (B / m ^ 2)) with B in Hhi by (field; lra). exact Hhi. }
  assert (HM2 : B / S <= M ^ 2).
  { apply (Rmult_le_reg_r S); [exact HS|].
    replace (B / S * S) with B by (field; lra).
    apply (Rmult_le_compat_l (M ^ 2)) in Hlo; [|nra].
    replace (M ^ 2 * (B / M ^ 2)) with B in Hlo by (field; lra). lra. }
  split.
  - rewrite <- (sqrt_pow2 m) by lra. apply sqrt_le_1_alt. exact Hm2.
  - rewrite <- (sqrt_pow2 M) by lra. apply sqrt_le_1_alt. exact HM2.
Qed.

Lemma si_Qsub (a b : Quantity) : si (Qsub a b) = si a - si b.
Proof.
  unfold Qsub, si. simpl. unfold si. pose proof (scale_pos (unit_of a)).
  field. lra.
Qed.

Lemma si_Qadd (a b : Quantity) : si (Qadd a b) = si a + si b.
Proof.
  unfold Qadd, si. simpl. unfold si. pose proof (scale_pos (unit_of a)).
  field. lra.
Qed.

Lemma si_Qscale (k : R) (a : Quantity) : si (Qscale k a) = k * si a.
Proof. unfold Qscale, si. simpl. ring. Qed.

Lemma half_literal : 0.50 = 1 / 2.
Proof. lra. Qed.

(** The two band edges, in GHz. *)
Lemma obs_freq_low_si (cfg : Config) :
  obs_freq_low cfg =
  (si (uip_obs_freq cfg) - 0.50 * si (uip_bandwidth cfg)) / scale GHz.
Proof. unfold obs_freq_low. rewrite value_convert, si_Qsub, si_Qscale. reflexivity. Qed.

Lemma obs_freq_upp_si (cfg : Config) :
  obs_freq_upp cfg =
  (si (uip_obs_freq cfg) + 0.50 * si (uip_bandwidth cfg)) / scale GHz.
Proof. unfold obs_freq_upp. rewrite value_convert, si_Qadd, si_Qscale. reflexivity. Qed.

Lemma band_width (cfg : Config) :
  (obs_freq_upp cfg - obs_freq_low cfg) * scale GHz = si (uip_bandwidth cfg).
Proof.
  rewrite obs_freq_low_si, obs_freq_upp_si. pose proof (scale_pos GHz).
  rewrite half_literal. field. lra.
Qed.


Lemma band_edges_ordered (cfg : Config) :
  0 < si (uip_bandwidth cfg) -> obs_freq_low cfg < obs_freq_upp cfg.
Proof.
  intros Hb. pose proof (band_width cfg) as H. pose proof (scale_pos GHz).
  nra.
Qed.

(** *** The padded frequency list is strictly increasing *)

Lemma StronglySorted_filter (p : R -> bool) (l : list R) :
  StronglySorted Rlt l -> StronglySorted Rlt (List.filter p l).
Proof.
  induction 1 as [|x l Hl IH Hx]; simpl; [constructor|].
  destruct (p x); [|exact IH].
  constructor; [exact IH|].
  rewrite Forall_forall in *. intros y Hy. apply Hx.
  apply list_elem_of_In. apply list_elem_of_In in Hy.
  apply filter_In in Hy. tauto.
Qed.

Lemma StronglySorted_snoc (l : list R) (u : R) :
  StronglySorted Rlt l -> Forall (fun x => x < u) l ->
  StronglySorted Rlt (l ++ [u]).
Proof.
  induction 1 as [|x l Hl IH Hx]; intros Hu; simpl.
  - repeat constructor.
  - apply Forall_cons_1 in Hu as [Hxu Hu].
    constructor; [apply IH; exact Hu|].
    apply Forall_app. split; [exact Hx|]. constructor; [exact Hxu|constructor].
Qed.

Lemma grid_in_band_spec (atm : AtmosphereParams) (cfg : Config) (f : R) :
  In f (grid_in_band atm cfg) ->
  obs_freq_low cfg < f < obs_freq_upp cfg.
Proof.
  unfold grid_in_band. intros H. apply filter_In in H as [_ H].
  apply andb_true_iff in H as [H1 H2].
  apply Rgtb_true in H1. apply Rltb_true in H2. lra.
Qed.

Lemma obs_freq_list_sorted (atm : AtmosphereParams) (cfg : Config) :
  StronglySorted Rlt (tau_atm_table_freq atm) ->
  0 < si (uip_bandwidth cfg) ->
  StronglySorted Rlt (obs_freq_list atm cfg).
Proof.
  intros Htable Hb. pose proof (band_edges_ordered cfg Hb) as Hedges.
  unfold obs_freq_list. simpl app. constructor.
  - apply StronglySorted_snoc.
    + apply StronglySorted_filter. exact Htable.
    + rewrite Forall_forall. intros f Hf. apply list_elem_of_In in Hf.
      apply grid_in_band_spec in Hf. lra.
  - apply Forall_app. split.
    + rewrite Forall_forall. intros f Hf. apply list_elem_of_In in Hf.
      apply grid_in_band_spec in Hf. lra.
    + constructor; [exact Hedges|constructor].
Qed.

(** The padded list always has its two edges, so the test
    [len(obs_freq_list) > 1] never fails. *)
Lemma obs_freq_list_length (atm : AtmosphereParams) (cfg : Config) :
  Nat.ltb 1 (length (obs_freq_list atm cfg)) = true.
Proof.
  unfold obs_freq_list. simpl app. simpl length. rewrite length_app. simpl.
  apply Nat.ltb_lt. lia.
Qed.

Lemma obs_mid_list_nonempty (x u : R) (l : list R) :
  obs_mid_list (x :: l ++ [u]) <> [].
Proof. destruct l; simpl app; rewrite obs_mid_list_cons; discriminate. Qed.

(** *** Smallest and largest channel SEFD *)

Lemma foldr_Rmin_le (a : R) (l : list R) :
  foldr Rmin a l <= a /\ Forall (fun x => foldr Rmin a l <= x) l.
Proof.
  induction l as [|y l [IHa IHl]]; simpl.
  - split; [lra|constructor].
  - pose proof (Rmin_l y (foldr Rmin a l)). pose proof (Rmin_r y (foldr Rmin a l)).
    split; [lra|]. constructor; [lra|].
    eapply Forall_impl; [exact IHl|]. simpl. intros; lra.
Qed.

Lemma foldr_Rmax_ge (a : R) (l : list R) :
  a <= foldr Rmax a l /\ Forall (fun x => x <= foldr Rmax a l) l.
Proof.
  induction l as [|y l [IHa IHl]]; simpl.
  - split; [lra|constructor].
  - pose proof (Rmax_l y (foldr Rmax a l)). pose proof (Rmax_r y (foldr Rmax a l)).
    split; [lra|]. constructor; [lra|].
    eapply Forall_impl; [exact IHl|]. simpl. intros; lra.
Qed.

Lemma min_max_of_bounds (l : list R) :
  Forall (fun x => min_of l <= x <= max_of l) l.
Proof.
  destruct l as [|a l]; [constructor|]. unfold min_of, max_of.
  destruct (foldr_Rmin_le a l) as [Ha Hl].
  destruct (foldr_Rmax_ge a l) as [Ha' Hl'].
  constructor; [lra|].
  rewrite Forall_forall in *. intros x Hx. split; auto.
Qed.

Lemma min_of_positive (l : list R) :
  l <> [] -> Forall (Rlt 0) l -> 0 < min_of l.
Proof.
  destruct l as [|a l]; [congruence|]. intros _ H.
  apply Forall_cons_1 in H as [Ha Hl]. unfold min_of.
  induction Hl as [|y l Hy Hl IH]; simpl; [exact Ha|].
  apply Rmin_glb_lt; assumption.
Qed.

(** *** The SEFD of finetune mode *)

Section Finetune.

Variable Efficiencies :
  Quantity -> Quantity -> Quantity -> Quantity -> Quantity -> Quantity ->
  EfficienciesT.
Variable atm : AtmosphereParams.
Variable Temperatures :
  Quantity -> Quantity -> Quantity -> Quantity -> Quantity -> Quantity ->
  R -> TemperaturesT.
Variable cfg : Config.

(** With the flag set, the SEFD is always the one of the sum. *)
Lemma finetune_sefd_is_effective :
  dp_sefd (derived_parameters_of Efficiencies atm Temperatures true cfg) =
  effective_sefd (uip_bandwidth cfg) (channel_bands atm cfg)
    (channel_sefds Efficiencies atm Temperatures cfg).
Proof.
  unfold derived_parameters_of. cbn [dp_sefd andb].
  rewrite obs_freq_list_length. reflexivity.
Qed.

Lemma effective_sefd_si (b : Quantity) (bs ss : list R) :
  si (effective_sefd b bs ss) =
  sqrt (si b / np_sum (zip_with (fun b s => b * scale GHz / s ^ 2) bs ss)).
Proof.
  unfold effective_sefd, si at 1. cbn [value unit_of scale]. apply Rmult_1_r.
Qed.

Lemma channel_bands_sum :
  np_sum (channel_bands atm cfg) * scale GHz = si (uip_bandwidth cfg).
Proof.
  unfold channel_bands, obs_freq_list. simpl app.
  rewrite np_sum_obs_band_list, last_app_singleton. apply band_width.
Qed.

Lemma channel_sefds_nonempty :
  channel_sefds Efficiencies atm Temperatures cfg <> [].
Proof.
  unfold channel_sefds, obs_freq_list. simpl app.
  pose proof (obs_mid_list_nonempty (obs_freq_low cfg) (obs_freq_upp cfg)
                (grid_in_band atm cfg)) as H.
  destruct (obs_mid_list _); [congruence|discriminate].
Qed.

Lemma finetune_sefd_within (m M : R) :
  0 < m ->
  0 < si (uip_bandwidth cfg) ->
  StronglySorted Rlt (tau_atm_table_freq atm) ->
  Forall (fun s => m <= s <= M)
         (channel_sefds Efficiencies atm Temperatures cfg) ->
  Forall (Rlt 0) (channel_bands atm cfg) /\
  m <= si (dp_sefd (derived_parameters_of Efficiencies atm Temperatures true cfg))
    <= M.
Proof.
  intros Hm Hb Htable Hbounds.
  pose proof (obs_band_list_positive
                (channel_sefd atm Temperatures cfg
                   (efficiencies_of Efficiencies cfg))
                (fun s => m <= s <= M) (obs_freq_list atm cfg)
                (obs_freq_list_sorted atm cfg Htable Hb) Hbounds) as H2.
  unfold channel_bands, channel_sefds in *. split.
  - clear -H2. induction H2 as [|b s bs ss [Hpos _] _ IH]; constructor; auto.
  - rewrite finetune_sefd_is_effective, effective_sefd_si.
    apply effective_sefd_between; auto using scale_pos.
    apply channel_bands_sum.
Qed.

(** C8. In finetune mode the SEFD is
    sqrt(bandwidth / sum_i(channel_bandwidth_i / sefd_i^2)) over the
    channels between consecutive entries of the padded frequency list.
    For a positive bandwidth, a table with strictly increasing frequencies
    and positive channel SEFDs, the channels have positive widths that add
    up to the bandwidth, there is at least one of them, and the SEFD lies
    between the smallest and the largest channel SEFD. *)
Theorem finetune_sefd_between :
  0 < si (uip_bandwidth cfg) ->
  StronglySorted Rlt (tau_atm_table_freq atm) ->
  Forall (Rlt 0) (channel_sefds Efficiencies atm Temperatures cfg) ->
  let sefds := channel_sefds Efficiencies atm Temperatures cfg in
  let bands := channel_bands atm cfg in
  let sefd :=
    dp_sefd (derived_parameters_of Efficiencies atm Temperatures true cfg) in
  si sefd =
    sqrt (si (uip_bandwidth cfg) /
          np_sum (zip_with (fun b s => b * scale GHz / s ^ 2) bands sefds)) /\
  (1 <= length sefds)%nat /\
  length bands = length sefds /\
  Forall (Rlt 0) bands /\
  np_sum bands * scale GHz = si (uip_bandwidth cfg) /\
  min_of sefds <= si sefd <= max_of sefds.
Proof.
  intros Hb Htable Hpos sefds bands sefd.
  assert (Hlen : length bands = length sefds).
  { unfold bands, sefds, channel_bands, channel_sefds, obs_band_list,
      obs_mid_list.
    rewrite length_map, !length_zip_with. reflexivity. }
  destruct (finetune_sefd_within (min_of sefds) (max_of sefds))
    as [Hbands Hbetween];
    auto using min_of_positive, channel_sefds_nonempty, min_max_of_bounds.
  split; [|split; [|split; [|split; [|split]]]]; auto using channel_bands_sum.
  - unfold sefd. rewrite finetune_sefd_is_effective. apply effective_sefd_si.
  - pose proof channel_sefds_nonempty as Hne. fold sefds in Hne.
    destruct sefds; [congruence|simpl; lia].
Qed.

End Finetune.

(** ** The sample configuration in finetune mode *)



Ltac decide_comparisons :=
  repeat match goal with
    | |- context [Rgtb ?a ?b] => unfold Rgtb
    | |- context [Rltb ?a ?b] =>
        first [ replace (Rltb a b) with true by (symmetry; apply Rltb_true; lra)
              | replace (Rltb a b) with false by (symmetry; apply Rltb_false; lra) ]
    end.

Lemma sample_band_edges :
  obs_freq_low sample_config = 96.25 /\ obs_freq_upp sample_config = 103.75.
Proof.
  rewrite obs_freq_low_si, obs_freq_upp_si. unfold si. simpl. lra.
Qed.

Lemma sample_grid_in_band : grid_in_band sample_atm sample_config = [100].
Proof.
  unfold grid_in_band. destruct sample_band_edges as [-> ->].
  simpl. decide_comparisons. reflexivity.
Qed.

Lemma sample_obs_freq_list :
  obs_freq_list sample_atm sample_config = [96.25; 100; 103.75].
Proof.
  unfold obs_freq_list. rewrite sample_grid_in_band.
  destruct sample_band_edges as [-> ->]. reflexivity.
Qed.

Lemma si_GHz (x : R) : si (mkQ x GHz) / scale GHz = x.
Proof. unfold si. simpl. lra. Qed.

(** The channel SEFD of the sample configuration at [x] GHz. *)
Lemma sample_channel_sefd (eta : EfficienciesT) (x : R) :
  eta_a eta <> 0 ->
  channel_sefd sample_atm sample_Temperatures sample_config eta x =
  2 * k_B * (50 + (x - 100) ^ 2) / (eta_a eta * (PI * 25 ^ 2)).
Proof.
  intros Heta.
  unfold channel_sefd, _calculate_sefd, convert, sample_Temperatures.
  cbn [T_sys value unit_of]. rewrite si_GHz.
  unfold si. simpl. field. pose proof PI_RGT_0. split; [lra|exact Heta].
Qed.


(** ** Instrument matching on concrete magnitudes *)

Lemma applicable_obs_freq_at_boundaries :
  applicable_list 120.0 instrument_obs_freqs = ["tifuun"] /\
  applicable_list 360.0 instrument_obs_freqs = ["sepia"; "gltcam"] /\
  applicable_list 200.0 instrument_obs_freqs =
    ["finer"; "sepia"; "tifuun"; "gltcam"].
Proof.
  unfold applicable_list, instrument_obs_freqs, in_open_range.
  cbn [flat_map fst snd app].
  repeat split; decide_comparisons; reflexivity.
Qed.

Lemma applicable_bandw_at_20000 :
  applicable_list 20000 instrument_bandw_vals =
    ["finer"; "sepia"; "sepia"; "sepia"; "chai"; "chai"].
Proof.
  unfold applicable_list, instrument_bandw_vals, in_open_range.
  cbn [flat_map fst snd app].
  decide_comparisons. reflexivity.
Qed.

(** With a bandwidth magnitude of 20000, FINER is returned at 200.0 and
    not at 120.0 or 360.0. *)
Lemma finer_at_boundaries (f : R) :
  let c := set_config
             (uip_bandwidth_body (mkQ 20000 MHz)
                (uip_obs_freq_body (mkQ f GHz) sample_config))
             round_calculator in
  (f = 200.0 -> "finer" ∈ find_applicable_instruments c) /\
  (f = 120.0 -> "finer" ∉ find_applicable_instruments c) /\
  (f = 360.0 -> "finer" ∉ find_applicable_instruments c).
Proof.
  intros c. unfold find_applicable_instruments.
  change (value (uip_obs_freq (_config c))) with f.
  change (value (uip_bandwidth (_config c))) with 20000.
  rewrite applicable_bandw_at_20000.
  destruct applicable_obs_freq_at_boundaries as (H120 & H360 & H200).
  rewrite elem_of_intersection, !elem_of_list_to_set.
  split; [|split]; intros ->.
  - rewrite H200. split; apply (bool_decide_unpack _); reflexivity.
  - rewrite H120. intros [H _]. revert H.
    apply (bool_decide_unpack _). reflexivity.
  - rewrite H360. intros [H _]. revert H.
    apply (bool_decide_unpack _). reflexivity.
Qed.

Lemma sample_table_sorted : StronglySorted Rlt (tau_atm_table_freq sample_atm).
Proof.
  simpl. repeat constructor; lra.
Qed.

Lemma sample_bandwidth_positive : 0 < si (uip_bandwidth sample_config).
Proof. unfold si. simpl. lra. Qed.

Lemma sample_channel_sefds :
  channel_sefds sample_Efficiencies sample_atm sample_Temperatures sample_config =
  [ 2 * k_B * (50 + ((100 + 96.25) * 0.50 - 100) ^ 2) / (0.8 * 0.94 * (PI * 25 ^ 2));
    2 * k_B * (50 + ((103.75 + 100) * 0.50 - 100) ^ 2) / (0.8 * 0.94 * (PI * 25 ^ 2)) ].
Proof.
  unfold channel_sefds, efficiencies_of.
  rewrite sample_obs_freq_list, !obs_mid_list_cons. cbn [map obs_mid_list].
  rewrite !sample_channel_sefd by (simpl; lra). reflexivity.
Qed.

(** ** Finetune mode and the simple mode *)








Lemma sample_channel_sefds_positive :
  Forall (Rlt 0)
    (channel_sefds sample_Efficiencies sample_atm sample_Temperatures
       sample_config).
Proof.
  rewrite sample_channel_sefds. pose proof PI_RGT_0.
  apply Forall_cons_2; [|apply Forall_cons_2; [|apply Forall_nil_2]];
    (apply Rdiv_lt_0_compat; [unfold k_B; lra|nra]).
Qed.

Lemma finetune_sefd_between_witness :
  let sefds :=
    channel_sefds sample_Efficiencies sample_atm sample_Temperatures
      sample_config in
  let sefd := dp_sefd (derived_parameters_of sample_Efficiencies sample_atm
                         sample_Temperatures true sample_config) in
  min_of sefds <= si sefd <= max_of sefds.
Proof.
  intros sefds sefd.
  apply (finetune_sefd_between sample_Efficiencies sample_atm
           sample_Temperatures sample_config
           sample_bandwidth_positive sample_table_sorted
           sample_channel_sefds_positive).
Defined.

(** * Further properties of the code *)

(** ** [_check_input_param_names] *)

(** X1. The name check accepts a dictionary exactly when every key in it is
    a field of the model; the empty dictionary is accepted. *)
Theorem check_input_param_names_accepts {A : Type}
    (fields : list string) (user_input : list (string * A)) :
  _check_input_param_names fields user_input = inr () <->
  Forall (fun entry => fst entry ∈ fields) user_input.
Proof.
  induction user_input as [|[param a] rest IH]; simpl.
  - split; [constructor|reflexivity].
  - destruct (bool_decide (param ∈ fields)) eqn:E.
    + apply bool_decide_eq_true in E. rewrite IH. split.
      * intros H. constructor; assumption.
      * intros H. apply Forall_cons_1 in H as [_ H]. exact H.
    + apply bool_decide_eq_false in E. split; [discriminate|].
      intros H. apply Forall_cons_1 in H as [H _]. contradiction.
Qed.

(** X2. When a key is not a field, the check raises a [ValueError] whose
    message names the first such key in iteration order, whatever comes
    after it. *)
Theorem check_input_param_names_first_unknown {A : Type}
    (fields : list string) (known rest : list (string * A))
    (param : string) (a : A) :
  Forall (fun entry => fst entry ∈ fields) known ->
  param ∉ fields ->
  _check_input_param_names fields (known ++ (param, a) :: rest) =
  inl (ValueError (invalid_parameter_message param)).
Proof.
  intros Hknown Hparam. induction Hknown as [|[p b] known Hp _ IH]; simpl.
  - rewrite bool_decide_eq_false_2 by exact Hparam. reflexivity.
  - simpl in Hp. rewrite bool_decide_eq_true_2 by exact Hp. exact IH.
Qed.

Lemma check_input_param_names_first_unknown_witness :
  _check_input_param_names sample_fields
    ([("obs_freq", 100)] ++ ("foo", 1) :: [("bar", 2); ("t_int", 3)]) =
  inl (ValueError (invalid_parameter_message "foo")).
Proof.
  apply (check_input_param_names_first_unknown sample_fields
           [("obs_freq", 100)] [("bar", 2); ("t_int", 3)] "foo" 1).
  - apply Forall_cons_2; [|apply Forall_nil_2].
    apply (bool_decide_unpack _). reflexivity.
  - apply (bool_decide_unpack _). reflexivity.
Defined.

(** ** The receiver temperature of FINER *)

Lemma Finer_low_band (v : R) :
  Rgtb v 120.0 && Rltb v 210.0 = true <-> 120 < v < 210.
Proof. rewrite andb_true_iff, Rgtb_true, Rltb_true. lra. Qed.

Lemma Finer_high_band (v : R) :
  Rgtb v 210.0 && Rltb v 360.0 = true <-> 210 < v < 360.
Proof. rewrite andb_true_iff, Rgtb_true, Rltb_true. lra. Qed.

Lemma Finer_set_receiver_temp_cases (obs_freq : Quantity) :
  let v := value obs_freq in
  (Finer_set_receiver_temp obs_freq = Some (mkQ 45.0 Kelvin) <-> 120 < v < 210) /\
  (Finer_set_receiver_temp obs_freq = Some (mkQ 75.0 Kelvin) <-> 210 < v < 360) /\
  (Finer_set_receiver_temp obs_freq = None <-> v <= 120 \/ v = 210 \/ 360 <= v).
Proof.
  intros v. unfold Finer_set_receiver_temp. fold v.
  pose proof (Finer_low_band v) as Hlow.
  pose proof (Finer_high_band v) as Hhigh.
  assert (Hne : mkQ 45.0 Kelvin <> mkQ 75.0 Kelvin).
  { intros H. apply (f_equal value) in H. simpl in H. lra. }
  destruct (Rgtb v 120.0 && Rltb v 210.0).
  - assert (120 < v < 210) by (apply Hlow; reflexivity).
    repeat split; intros; try discriminate; try lra; try reflexivity.
    exfalso. apply Hne. congruence.
  - assert (Hnlow : ~ 120 < v < 210) by (intros H; apply Hlow in H; discriminate).
    destruct (Rgtb v 210.0 && Rltb v 360.0).
    + assert (210 < v < 360) by (apply Hhigh; reflexivity).
      repeat split; intros; try discriminate; try lra; try reflexivity.
      exfalso. apply Hne. congruence.
    + assert (Hnhigh : ~ 210 < v < 360)
        by (intros H; apply Hhigh in H; discriminate).
      repeat split; intros; try discriminate; try lra; try reflexivity.
Qed.

(** X3. [Finer._set_receiver_temp] gives 45 K exactly for magnitudes
    strictly between 120 and 210, 75 K exactly for magnitudes strictly
    between 210 and 360, and [None] otherwise: at or below 120, at or
    above 360, and at exactly 210. *)
Theorem Finer_set_receiver_temp_spec (obs_freq : Quantity) :
  let v := value obs_freq in
  (Finer_set_receiver_temp obs_freq = Some (mkQ 45.0 Kelvin) <-> 120 < v < 210) /\
  (Finer_set_receiver_temp obs_freq = Some (mkQ 75.0 Kelvin) <-> 210 < v < 360) /\
  (Finer_set_receiver_temp obs_freq = None <-> v <= 120 \/ v = 210 \/ 360 <= v).
Proof. exact (Finer_set_receiver_temp_cases obs_freq). Qed.

(** ** The two coverage tables *)

Lemma elem_of_if_singleton (b : bool) (x i : string) :
  i ∈ (if b then [x] else []) <-> i = x /\ b = true.
Proof.
  destruct b.
  - rewrite list_elem_of_singleton. tauto.
  - rewrite elem_of_nil. split; [tauto|]. intros [_ H]. discriminate.
Qed.

Lemma applicable_obs_freq_unfold (v : R) (i : string) :
  i ∈ applicable_list v instrument_obs_freqs <->
  (i = "finer" /\ 120.0 < v < 360.0) \/
  (i = "sepia" /\ (163.0 < v < 211.0 \/ 272.0 < v < 376.0 \/ 600.0 < v < 722.0)) \/
  (i = "chai" /\ (460.0 < v < 500.0 \/ 780.0 < v < 820.0)) \/
  (i = "tifuun" /\ 90.0 < v < 360.0) \/
  (i = "gltcam" /\ (130.0 < v < 170.0 \/ 190.0 < v < 250.0 \/ 250.0 < v < 295.0 \/
                    330.0 < v < 365.0 \/ 385.0 < v < 415.0 \/ 630.0 < v < 710.0)) \/
  (i = "muscat" /\ 250.0 < v < 300.0).
Proof.
  unfold applicable_list, instrument_obs_freqs.
  cbn [flat_map fst snd app].
  rewrite !elem_of_app, !elem_of_if_singleton, !in_open_range_spec, elem_of_nil.
  cbn [fst snd]. tauto.
Qed.

Lemma applicable_bandw_unfold (b : R) (i : string) :
  i ∈ applicable_list b instrument_bandw_vals <->
  (i = "finer" /\ 10500.0 < b < 3000000.0) \/
  (i = "sepia" /\ (10000.0 < b < 5600000.0 \/ 10000.0 < b < 32000000.0 \/
                   10000.0 < b < 10000000.0)) \/
  (i = "chai" /\ 10000.0 < b < 1000000.0) \/
  (i = "tifuun" /\ 10.0 < b < 1000.0) \/
  (i = "gltcam" /\ 1.0 < b < 5.0) \/
  (i = "muscat" /\ 1.0 < b < 5.0).
Proof.
  unfold applicable_list, instrument_bandw_vals.
  cbn [flat_map fst snd app].
  rewrite !elem_of_app, !elem_of_if_singleton, !in_open_range_spec, elem_of_nil.
  cbn [fst snd]. tauto.
Qed.

Lemma elem_of_find_applicable_instruments (c : Calculator) (i : string) :
  i ∈ find_applicable_instruments c <->
  i ∈ applicable_list (value (uip_obs_freq (_config c))) instrument_obs_freqs /\
  i ∈ applicable_list (value (uip_bandwidth (_config c))) instrument_bandw_vals.
Proof.
  unfold find_applicable_instruments.
  rewrite elem_of_intersection, !elem_of_list_to_set. tauto.
Qed.

(** X4. FINER has a receiver temperature exactly at the magnitudes where
    its frequency range (120.0, 360.0) matches, except at 210.0, where the
    range matches and the temperature is [None]. *)
Theorem Finer_T_rx_defined (obs_freq : Quantity) :
  let v := value obs_freq in
  ("finer" ∈ applicable_list v instrument_obs_freqs <-> 120 < v < 360) /\
  ((exists T, Finer_T_rx obs_freq = Some T) <->
   "finer" ∈ applicable_list v instrument_obs_freqs /\ v <> 210) /\
  Finer_T_rx (mkQ 210.0 GHz) = None /\
  "finer" ∈ applicable_list 210.0 instrument_obs_freqs.
Proof.
  intros v.
  assert (Hfiner : forall x, "finer" ∈ applicable_list x instrument_obs_freqs <->
                             120 < x < 360).
  { intros x. rewrite applicable_obs_freq_unfold. split.
    - intros [[_ H]|[[H _]|[[H _]|[[H _]|[[H _]|[H _]]]]]];
        try discriminate. lra.
    - intros H. left. split; [reflexivity|lra]. }
  destruct (Finer_set_receiver_temp_cases obs_freq) as (H45 & H75 & HNone).
  fold v in H45, H75, HNone. unfold Finer_T_rx.
  split; [apply Hfiner|]. split; [|split].
  - rewrite Hfiner. split.
    + intros [T HT]. destruct (Finer_set_receiver_temp obs_freq) eqn:E;
        [|discriminate].
      assert (~ (v <= 120 \/ v = 210 \/ 360 <= v)).
      { intros H. apply HNone in H. discriminate. }
      lra.
    + intros [Hv Hne].
      destruct (Rlt_dec v 210).
      * exists (mkQ 45.0 Kelvin). apply H45. lra.
      * exists (mkQ 75.0 Kelvin). apply H75. lra.
  - apply (Finer_set_receiver_temp_cases (mkQ 210.0 GHz)). simpl. lra.
  - apply Hfiner. lra.
Qed.

(** X5. An instrument is returned only when the frequency magnitude lies
    in (90, 376), (385, 415), (460, 500), (600, 722) or (780, 820) and the
    bandwidth magnitude lies in (1, 5), (10, 1000) or (10000, 32000000):
    outside these, and at their end points, the result is empty. *)
Theorem find_applicable_instruments_coverage (c : Calculator) (i : string) :
  i ∈ find_applicable_instruments c ->
  let v := value (uip_obs_freq (_config c)) in
  let b := value (uip_bandwidth (_config c)) in
  (90 < v < 376 \/ 385 < v < 415 \/ 460 < v < 500 \/ 600 < v < 722 \/
   780 < v < 820) /\
  (1 < b < 5 \/ 10 < b < 1000 \/ 10000 < b < 32000000).
Proof.
  intros H v b. apply elem_of_find_applicable_instruments in H as [Hv Hb].
  fold v in Hv. fold b in Hb.
  apply applicable_obs_freq_unfold in Hv. apply applicable_bandw_unfold in Hb.
  split.
  - clear Hb. destruct Hv as [[_ H]|[[_ H]|[[_ H]|[[_ H]|[[_ H]|[_ H]]]]]]; lra.
  - clear Hv. destruct Hb as [[_ H]|[[_ H]|[[_ H]|[[_ H]|[[_ H]|[_ H]]]]]]; lra.
Qed.

Lemma finer_returned_at_200 :
  "finer" ∈ find_applicable_instruments
    (set_config (uip_bandwidth_body (mkQ 20000 MHz)
                   (uip_obs_freq_body (mkQ 200.0 GHz) sample_config))
                round_calculator).
Proof. apply (finer_at_boundaries 200.0). reflexivity. Qed.

Lemma find_applicable_instruments_coverage_witness :
  (90 < 200.0 < 376 \/ 385 < 200.0 < 415 \/ 460 < 200.0 < 500 \/
   600 < 200.0 < 722 \/ 780 < 200.0 < 820) /\
  (1 < 20000 < 5 \/ 10 < 20000 < 1000 \/ 10000 < 20000 < 32000000).
Proof.
  exact (find_applicable_instruments_coverage _ "finer" finer_returned_at_200).
Defined.

(** X6. The instruments fall into three groups by bandwidth, and one call
    never returns instruments of two groups: the result is within FINER,
    SEPIA and CHAI, or within TIFUUN, or within GLTCAM and MUSCAT. *)
Theorem find_applicable_instruments_groups (c : Calculator) :
  (forall i, i ∈ find_applicable_instruments c -> i ∈ ["finer"; "sepia"; "chai"]) \/
  (forall i, i ∈ find_applicable_instruments c -> i ∈ ["tifuun"]) \/
  (forall i, i ∈ find_applicable_instruments c -> i ∈ ["gltcam"; "muscat"]).
Proof.
  set (b := value (uip_bandwidth (_config c))).
  assert (Hb : forall i, i ∈ find_applicable_instruments c ->
                         i ∈ applicable_list b instrument_bandw_vals).
  { intros i H. apply elem_of_find_applicable_instruments in H. tauto. }
  destruct (Rlt_dec 10000 b) as [Hhigh|Hhigh]; [left|right].
  - intros i H. apply Hb, applicable_bandw_unfold in H.
    rewrite !elem_of_cons.
    destruct H as [[-> _]|[[-> _]|[[-> _]|[[_ H]|[[_ H]|[_ H]]]]]];
      auto; lra.
  - destruct (Rlt_dec 10 b) as [Hmid|Hmid]; [left|right].
    + intros i H. apply Hb, applicable_bandw_unfold in H.
      rewrite !elem_of_cons.
      destruct H as [[_ H]|[[_ H]|[[_ H]|[[-> _]|[[_ H]|[_ H]]]]]];
        auto; lra.
    + intros i H. apply Hb, applicable_bandw_unfold in H.
      rewrite !elem_of_cons.
      destruct H as [[_ H]|[[_ H]|[[_ H]|[[_ H]|[[-> _]|[-> _]]]]]];
        auto; lra.
Qed.

(** ** What the two calculations raise and leave alone *)

(** X7. With [update_calculator=False] neither calculation changes the
    calculator or emits a warning, whether it returns or raises. *)
Theorem calculations_without_update_keep_state
    (field_check : string -> Quantity -> option exn)
    (arg : option Quantity) (w : World) :
  snd (calculate_sensitivity field_check arg false w) = w /\
  snd (calculate_t_integration field_check arg false w) = w.
Proof.
  destruct arg as [q|].
  - rewrite calculate_sensitivity_given_keep,
      calculate_t_integration_given_keep.
    destruct (field_check "t_int" q), (field_check "sensitivity" q);
      split; reflexivity.
  - rewrite calculate_sensitivity_stored_keep,
      calculate_t_integration_stored_keep.
    destruct (is_flux_density (sensitivity (self w))); split; reflexivity.
Qed.

(** A length given as the sensitivity with [update_calculator=True] is
    bound to the attribute, and the call raises at line 140. *)
Lemma unchecked_length_raises :
  calculate_t_integration sample_field_check (Some (mkQ 5 metre)) true
    round_world =
  (inl (UnitConversionError SI_other sec),
   mkWorld (setattr_sensitivity (mkQ 5 metre) round_calculator) []).
Proof. rewrite calculate_t_integration_given_update. reflexivity. Qed.

(** X8. [calculate_sensitivity] raises exactly when it is given an
    integration time that the check rejects, with the exception of the
    check and with the state untouched: nothing is stored and no result is
    computed.  [calculate_t_integration] raises in exactly three cases.
    With [update_calculator=False] and a sensitivity that the check
    rejects it raises the exception of the check and the state is
    untouched.  With [update_calculator=True] the given sensitivity is
    bound to the attribute without a check, and when it is not a flux
    density the conversion of line 140 raises [UnitConversionError] with
    the attribute already changed.  Without an argument it raises
    [UnitConversionError] when the attribute is not a flux density, and
    the state is untouched. *)
Theorem calculations_raising_cases
    (field_check : string -> Quantity -> option exn)
    (arg : option Quantity) (update_calculator : bool) (w w' : World) (e : exn) :
  (calculate_sensitivity field_check arg update_calculator w = (inl e, w') <->
   (exists t, arg = Some t /\ field_check "t_int" t = Some e) /\ w' = w) /\
  (calculate_t_integration field_check arg update_calculator w = (inl e, w') <->
   (exists s, arg = Some s /\ update_calculator = false /\
              field_check "sensitivity" s = Some e /\ w' = w) \/
   (exists s, arg = Some s /\ update_calculator = true /\
              is_flux_density s = false /\
              e = UnitConversionError SI_other sec /\
              w' = mkWorld (setattr_sensitivity s (self w)) (warnings w)) \/
   (arg = None /\ is_flux_density (sensitivity (self w)) = false /\
    e = UnitConversionError SI_other sec /\ w' = w)).
Proof.
  split.
  - destruct arg as [t|], update_calculator.
    + rewrite calculate_sensitivity_given_update.
      destruct (field_check "t_int" t) as [e'|] eqn:E.
      * split.
        -- intros [= -> ->]. split; [eauto|reflexivity].
        -- intros [(t' & [= <-] & H) ->]. congruence.
      * split; [discriminate|]. intros [(t' & [= <-] & H) _]. congruence.
    + rewrite calculate_sensitivity_given_keep.
      destruct (field_check "t_int" t) as [e'|] eqn:E.
      * split.
        -- intros [= -> ->]. split; [eauto|reflexivity].
        -- intros [(t' & [= <-] & H) ->]. congruence.
      * split; [discriminate|]. intros [(t' & [= <-] & H) _]. congruence.
    + rewrite calculate_sensitivity_stored_update.
      split; [discriminate|]. intros [(t & H & _) _]. discriminate.
    + rewrite calculate_sensitivity_stored_keep.
      split; [discriminate|]. intros [(t & H & _) _]. discriminate.
  - destruct arg as [s|], update_calculator.
    + rewrite calculate_t_integration_given_update. cbv zeta.
      destruct (is_flux_density s) eqn:F.
      * split; [discriminate|].
        intros [(s' & _ & H & _) | [(s' & [= <-] & _ & H & _) | (H & _)]];
          congruence.
      * split.
        -- intros [= <- <-]. right; left. exists s. auto.
        -- intros [(s' & _ & H & _) | [(s' & [= <-] & _ & _ & -> & ->) | (H & _)]];
             [discriminate | reflexivity | discriminate].
    + rewrite calculate_t_integration_given_keep.
      destruct (field_check "sensitivity" s) as [e'|] eqn:E.
      * split.
        -- intros [= -> ->]. left. exists s. auto.
        -- intros [(s' & [= <-] & _ & H & ->) | [(s' & _ & H & _) | (H & _)]];
             [congruence | discriminate | discriminate].
      * split; [discriminate|].
        intros [(s' & [= <-] & _ & H & _) | [(s' & _ & H & _) | (H & _)]];
          [congruence | discriminate | discriminate].
    + rewrite calculate_t_integration_stored_update.
      destruct (is_flux_density (sensitivity (self w))) eqn:F.
      * split; [discriminate|].
        intros [(s' & H & _) | [(s' & H & _) | (_ & H & _)]]; discriminate.
      * split.
        -- intros [= <- <-]. right; right. auto.
        -- intros [(s' & H & _) | [(s' & H & _) | (_ & _ & -> & ->)]];
             [discriminate | discriminate | reflexivity].
    + rewrite calculate_t_integration_stored_keep.
      destruct (is_flux_density (sensitivity (self w))) eqn:F.
      * split; [discriminate|].
        intros [(s' & H & _) | [(s' & H & _) | (_ & H & _)]]; discriminate.
      * split.
        -- intros [= <- <-]. right; right. auto.
        -- intros [(s' & H & _) | [(s' & H & _) | (_ & _ & -> & ->)]];
             [discriminate | discriminate | reflexivity].
Qed.

(** ** More of the radiometer equation *)

Lemma radiometer_round_trip_back (sefd eta n b s : R) :
  0 < sefd -> 0 < eta -> 0 < n -> 0 < b -> 0 < s ->
  sefd / (eta * sqrt (n * b * ((sefd / (s * eta)) ^ 2 / (n * b)))) = s.
Proof.
  intros Hs He Hn Hb Hsens.
  assert (Hx : 0 < sefd / (s * eta)).
  { apply Rdiv_lt_0_compat; [exact Hs|]. apply Rmult_lt_0_compat; assumption. }
  assert (Hnb : 0 < n * b) by (apply Rmult_lt_0_compat; assumption).
  replace (n * b * ((sefd / (s * eta)) ^ 2 / (n * b)))
    with ((sefd / (s * eta)) ^ 2) by (field; lra).
  rewrite sqrt_pow2 by lra. field. lra.
Qed.

(** X9. The round trip the other way: for a calculator with positive
    SEFD, system efficiency, number of polarisations and bandwidth, and a
    positive sensitivity that passes the check, [calculate_t_integration]
    without update followed by [calculate_sensitivity] without update on
    its result returns the sensitivity it started from, as a physical
    value, and leaves the calculator as it was. *)
Theorem round_trip_from_sensitivity
    (field_check : string -> Quantity -> option exn) (s : Quantity) (w : World) :
  let c := self w in
  0 < si (dp_sefd (_dp c)) -> 0 < dp_eta_s (_dp c) ->
  0 < si (uip_n_pol (_config c)) -> 0 < si (uip_bandwidth (_config c)) ->
  0 < si s ->
  field_check "sensitivity" s = None ->
  field_check "t_int" (rescale_t_int (t_int_formula c s)) = None ->
  exists t s',
    calculate_t_integration field_check (Some s) false w = (inr t, w) /\
    calculate_sensitivity field_check (Some t) false w = (inr s', w) /\
    si s' = si s.
Proof.
  intros c Hs He Hn Hb Hsens Hcs Hct.
  exists (rescale_t_int (t_int_formula c s)).
  exists (rescale_sensitivity
            (sensitivity_formula c (rescale_t_int (t_int_formula c s)))).
  split; [|split].
  - rewrite calculate_t_integration_given_keep, Hcs. reflexivity.
  - rewrite calculate_sensitivity_given_keep, Hct. reflexivity.
  - rewrite rescale_sensitivity_si, sensitivity_formula_si, rescale_t_int_si,
      t_int_formula_si.
    apply radiometer_round_trip_back; assumption.
Qed.

Lemma t_int_formula_pos (c : Calculator) (s : Quantity) :
  0 < si (dp_sefd (_dp c)) -> 0 < dp_eta_s (_dp c) ->
  0 < si (uip_n_pol (_config c)) -> 0 < si (uip_bandwidth (_config c)) ->
  0 < si s ->
  0 < si (t_int_formula c s).
Proof.
  intros Hs He Hn Hb Hsens. rewrite t_int_formula_si.
  assert (Hx : 0 < si (dp_sefd (_dp c)) / (si s * dp_eta_s (_dp c))).
  { apply Rdiv_lt_0_compat; [exact Hs|]. apply Rmult_lt_0_compat; assumption. }
  apply Rdiv_lt_0_compat; [|apply Rmult_lt_0_compat; assumption].
  apply pow_lt. exact Hx.
Qed.

Lemma sample_sensitivity_accepted (q : Quantity) :
  0 < si q -> sample_field_check "sensitivity" q = None.
Proof.
  intros H. rewrite sample_field_check_sensitivity.
  replace (Rgtb _ 0) with true; [reflexivity|].
  symmetry. apply Rgtb_true. lra.
Qed.

Lemma sample_t_int_accepted (q : Quantity) :
  1 <= si q -> sample_field_check "t_int" q = None.
Proof.
  intros H. rewrite sample_field_check_t_int.
  replace (Rltb _ 1) with false; [reflexivity|].
  symmetry. apply Rltb_false. exact H.
Qed.

Lemma round_trip_from_sensitivity_witness :
  exists t s',
    calculate_t_integration sample_field_check (Some (mkQ 100 uJy)) false
      round_world = (inr t, round_world) /\
    calculate_sensitivity sample_field_check (Some t) false round_world =
      (inr s', round_world) /\
    si s' = si (mkQ 100 uJy).
Proof.
  destruct round_calculator_positive as (Hs & He & Hn & Hb).
  assert (Hsens : 0 < si (mkQ 100 uJy)) by (unfold si; simpl; lra).
  apply (round_trip_from_sensitivity sample_field_check (mkQ 100 uJy) round_world
           Hs He Hn Hb Hsens (sample_sensitivity_accepted _ Hsens)).
  apply sample_t_int_accepted. rewrite rescale_t_int_si.
  unfold t_int_formula, si. simpl. lra.
Defined.

(** ** The two calculations, one after the other *)

(** X10. After [calculate_sensitivity(t_int, update_calculator=True)] with
    an accepted integration time, [calculate_t_integration()] without an
    argument reads the sensitivity that the first call bound to the
    calculator and returns the integration time the first call was given
    (positive SEFD, system efficiency, number of polarisations, bandwidth
    and integration time). *)
Theorem calculate_t_integration_after_calculate_sensitivity
    (field_check : string -> Quantity -> option exn)
    (t : Quantity) (update_calculator : bool) (w : World) :
  let c := self w in
  0 < si (dp_sefd (_dp c)) -> 0 < dp_eta_s (_dp c) ->
  0 < si (uip_n_pol (_config c)) -> 0 < si (uip_bandwidth (_config c)) ->
  0 < si t ->
  field_check "t_int" t = None ->
  exists s w1 t' w2,
    calculate_sensitivity field_check (Some t) true w = (inr s, w1) /\
    calculate_t_integration field_check None update_calculator w1 = (inr t', w2) /\
    si t' = si t.
Proof.
  intros c Hs He Hn Hb Ht Hct.
  rewrite calculate_sensitivity_given_update, Hct. cbv zeta.
  do 2 eexists.
  destruct (uip_t_int_body_frame t (_config c)) as (_ & Hn' & Hb' & _).
  destruct update_calculator.
  - do 2 eexists. split; [reflexivity|].
    rewrite calculate_t_integration_stored_update. cbv zeta.
    cbn [self sensitivity setattr_sensitivity].
    rewrite calculated_sensitivity_is_flux_density.
    split; [reflexivity|].
    rewrite rescale_t_int_si, t_int_formula_si. cbn [self sensitivity
      setattr_sensitivity _dp _config set_config].
    rewrite rescale_sensitivity_si, sensitivity_formula_si.
    cbn [_dp _config set_config]. fold c. rewrite Hn', Hb'.
    apply radiometer_round_trip; assumption.
  - do 2 eexists. split; [reflexivity|].
    rewrite calculate_t_integration_stored_keep.
    cbn [self sensitivity setattr_sensitivity].
    rewrite calculated_sensitivity_is_flux_density.
    split; [reflexivity|].
    rewrite rescale_t_int_si, t_int_formula_si. cbn [self sensitivity
      setattr_sensitivity _dp _config set_config].
    rewrite rescale_sensitivity_si, sensitivity_formula_si.
    cbn [_dp _config set_config]. fold c. rewrite Hn', Hb'.
    apply radiometer_round_trip; assumption.
Qed.

Lemma calculate_t_integration_after_calculate_sensitivity_witness :
  exists s w1 t' w2,
    calculate_sensitivity sample_field_check (Some (mkQ 100 sec)) true
      round_world = (inr s, w1) /\
    calculate_t_integration sample_field_check None true w1 = (inr t', w2) /\
    si t' = si (mkQ 100 sec).
Proof.
  destruct round_calculator_positive as (Hs & He & Hn & Hb).
  assert (Ht : 0 < si (mkQ 100 sec)) by (unfold si; simpl; lra).
  exact (calculate_t_integration_after_calculate_sensitivity
           sample_field_check (mkQ 100 sec) true round_world
           Hs He Hn Hb Ht sample_t_int_100_accepted).
Defined.

(** X11. The other order does not chain: [calculate_t_integration] never
    writes the integration time of the configuration, so whatever it is
    given and whether it updates or not, a following
    [calculate_sensitivity()] without an argument returns what it would
    have returned before. *)
Theorem calculate_sensitivity_ignores_calculate_t_integration
    (field_check : string -> Quantity -> option exn)
    (arg : option Quantity) (update1 update2 : bool) (w : World) :
  let w1 := snd (calculate_t_integration field_check arg update1 w) in
  _config (self w1) = _config (self w) /\
  fst (calculate_sensitivity field_check None update2 w1) =
  fst (calculate_sensitivity field_check None update2 w).
Proof.
  intros w1.
  assert (H : _config (self w1) = _config (self w) /\ _dp (self w1) = _dp (self w)).
  { unfold w1. destruct arg as [s|], update1.
    - rewrite calculate_t_integration_given_update. cbv zeta.
      destruct (is_flux_density s); split; reflexivity.
    - rewrite calculate_t_integration_given_keep.
      destruct (field_check "sensitivity" s); split; reflexivity.
    - rewrite calculate_t_integration_stored_update.
      destruct (is_flux_density _); split; reflexivity.
    - rewrite calculate_t_integration_stored_keep.
      destruct (is_flux_density _); split; reflexivity. }
  destruct H as [Hcfg Hdp]. split; [exact Hcfg|].
  destruct update2.
  - rewrite !calculate_sensitivity_stored_update. cbn [fst].
    unfold sensitivity_formula. rewrite Hcfg, Hdp. reflexivity.
  - rewrite !calculate_sensitivity_stored_keep. cbn [fst].
    unfold sensitivity_formula. rewrite Hcfg, Hdp. reflexivity.
Qed.

(** ** Scaling laws *)

(** X12. The square-root law: on one calculator, without update, an
    integration time [k^2] times as long gives a sensitivity [k] times
    smaller (as physical values), for positive [k], a non-zero system
    efficiency and positive number of polarisations, bandwidth and
    integration time. *)
Theorem sensitivity_square_root_law
    (field_check : string -> Quantity -> option exn)
    (t1 t2 : Quantity) (k : R) (w : World) :
  let c := self w in
  0 < k -> dp_eta_s (_dp c) <> 0 ->
  0 < si (uip_n_pol (_config c)) * si (uip_bandwidth (_config c)) * si t1 ->
  si t2 = k ^ 2 * si t1 ->
  field_check "t_int" t1 = None -> field_check "t_int" t2 = None ->
  exists s1 s2,
    calculate_sensitivity field_check (Some t1) false w = (inr s1, w) /\
    calculate_sensitivity field_check (Some t2) false w = (inr s2, w) /\
    si s2 = si s1 / k.
Proof.
  intros c Hk He Hx Ht2 Hc1 Hc2.
  rewrite !calculate_sensitivity_given_keep, Hc1, Hc2.
  do 2 eexists. split; [reflexivity|]. split; [reflexivity|].
  rewrite !rescale_sensitivity_si, !sensitivity_formula_si. fold c.
  rewrite Ht2.
  set (x := si (uip_n_pol (_config c)) * si (uip_bandwidth (_config c)) * si t1) in *.
  replace (si (uip_n_pol (_config c)) * si (uip_bandwidth (_config c)) *
           (k ^ 2 * si t1)) with (k ^ 2 * x) by (unfold x; ring).
  rewrite sqrt_mult by nra. rewrite sqrt_pow2 by lra.
  pose proof (sqrt_lt_R0 x Hx). field. lra.
Qed.

Lemma sensitivity_square_root_law_witness :
  exists s1 s2,
    calculate_sensitivity sample_field_check (Some (mkQ 100 sec)) false
      round_world = (inr s1, round_world) /\
    calculate_sensitivity sample_field_check (Some (mkQ 400 sec)) false
      round_world = (inr s2, round_world) /\
    si s2 = si s1 / 2.
Proof.
  apply (sensitivity_square_root_law sample_field_check
           (mkQ 100 sec) (mkQ 400 sec) 2 round_world).
  - lra.
  - simpl. lra.
  - unfold si. simpl. lra.
  - unfold si. simpl. lra.
  - exact sample_t_int_100_accepted.
  - apply sample_t_int_accepted. unfold si. simpl. lra.
Defined.

(** X13. The inverse-square law: on one calculator, without update, a
    sensitivity [k] times smaller needs an integration time [k^2] times as
    long, for non-zero [k], sensitivity, system efficiency, number of
    polarisations and bandwidth. *)
Theorem t_integration_inverse_square_law
    (field_check : string -> Quantity -> option exn)
    (s1 s2 : Quantity) (k : R) (w : World) :
  let c := self w in
  k <> 0 -> si s1 <> 0 -> dp_eta_s (_dp c) <> 0 ->
  si (uip_n_pol (_config c)) * si (uip_bandwidth (_config c)) <> 0 ->
  si s2 = si s1 / k ->
  field_check "sensitivity" s1 = None -> field_check "sensitivity" s2 = None ->
  exists t1 t2,
    calculate_t_integration field_check (Some s1) false w = (inr t1, w) /\
    calculate_t_integration field_check (Some s2) false w = (inr t2, w) /\
    si t2 = k ^ 2 * si t1.
Proof.
  intros c Hk Hs1 He Hnb Hs2 Hc1 Hc2.
  rewrite !calculate_t_integration_given_keep, Hc1, Hc2.
  do 2 eexists. split; [reflexivity|]. split; [reflexivity|].
  rewrite !rescale_t_int_si, !t_int_formula_si. fold c. rewrite Hs2.
  field. repeat split; try assumption;
    intros H0; apply Hnb; rewrite H0; ring.
Qed.

Lemma t_integration_inverse_square_law_witness :
  exists t1 t2,
    calculate_t_integration sample_field_check (Some (mkQ 100 uJy)) false
      round_world = (inr t1, round_world) /\
    calculate_t_integration sample_field_check (Some (mkQ 50 uJy)) false
      round_world = (inr t2, round_world) /\
    si t2 = 2 ^ 2 * si t1.
Proof.
  apply (t_integration_inverse_square_law sample_field_check
           (mkQ 100 uJy) (mkQ 50 uJy) 2 round_world).
  - lra.
  - unfold si. simpl. lra.
  - simpl. lra.
  - unfold si. simpl. lra.
  - unfold si. simpl. lra.
  - apply sample_sensitivity_accepted. unfold si. simpl. lra.
  - apply sample_sensitivity_accepted. unfold si. simpl. lra.
Defined.

(** X14. Integrating longer never hurts: on one calculator with positive
    SEFD, system efficiency, number of polarisations and bandwidth, a
    longer positive integration time gives a strictly smaller
    sensitivity value. *)
Theorem sensitivity_decreases_with_t_int
    (field_check : string -> Quantity -> option exn)
    (t1 t2 : Quantity) (w : World) :
  let c := self w in
  0 < si (dp_sefd (_dp c)) -> 0 < dp_eta_s (_dp c) ->
  0 < si (uip_n_pol (_config c)) -> 0 < si (uip_bandwidth (_config c)) ->
  0 < si t1 < si t2 ->
  field_check "t_int" t1 = None -> field_check "t_int" t2 = None ->
  exists s1 s2,
    calculate_sensitivity field_check (Some t1) false w = (inr s1, w) /\
    calculate_sensitivity field_check (Some t2) false w = (inr s2, w) /\
    si s2 < si s1.
Proof.
  intros c Hs He Hn Hb [Ht1 Ht12] Hc1 Hc2.
  rewrite !calculate_sensitivity_given_keep, Hc1, Hc2.
  do 2 eexists. split; [reflexivity|]. split; [reflexivity|].
  rewrite !rescale_sensitivity_si, !sensitivity_formula_si. fold c.
  assert (Hnb : 0 < si (uip_n_pol (_config c)) * si (uip_bandwidth (_config c)))
    by (apply Rmult_lt_0_compat; assumption).
  set (nb := si (uip_n_pol (_config c)) * si (uip_bandwidth (_config c))) in *.
  assert (Hx1 : 0 < nb * si t1) by (apply Rmult_lt_0_compat; lra).
  assert (Hx12 : nb * si t1 < nb * si t2) by (apply Rmult_lt_compat_l; lra).
  pose proof (sqrt_lt_R0 _ Hx1) as Hq1.
  pose proof (sqrt_lt_1_alt (nb * si t1) (nb * si t2) (conj (Rlt_le _ _ Hx1) Hx12))
    as Hq12.
  unfold Rdiv. apply Rmult_lt_compat_l; [exact Hs|].
  apply Rinv_lt_contravar.
  - apply Rmult_lt_0_compat; apply Rmult_lt_0_compat; lra.
  - apply Rmult_lt_compat_l; [exact He|exact Hq12].
Qed.

Lemma sensitivity_decreases_with_t_int_witness :
  exists s1 s2,
    calculate_sensitivity sample_field_check (Some (mkQ 100 sec)) false
      round_world = (inr s1, round_world) /\
    calculate_sensitivity sample_field_check (Some (mkQ 2 minute)) false
      round_world = (inr s2, round_world) /\
    si s2 < si s1.
Proof.
  destruct round_calculator_positive as (Hs & He & Hn & Hb).
  apply (sensitivity_decreases_with_t_int sample_field_check
           (mkQ 100 sec) (mkQ 2 minute) round_world Hs He Hn Hb).
  - unfold si. simpl. lra.
  - exact sample_t_int_100_accepted.
  - apply sample_t_int_accepted. unfold si. simpl. lra.
Defined.

(** ** The rescaled magnitudes *)

Lemma rescale_sensitivity_convert (q : Quantity) :
  rescale_sensitivity q = convert q (sensitivity_tier (si q)).
Proof.
  unfold rescale_sensitivity, sensitivity_tier.
  rewrite !Qlt_convert, !Qge_convert.
  repeat match goal with
         | |- context [Rltb ?a ?b] => destruct (Rltb a b); simpl
         end; reflexivity.
Qed.

Lemma rescale_t_int_convert (q : Quantity) :
  rescale_t_int q = convert q (time_tier (si q)).
Proof.
  unfold rescale_t_int, time_tier.
  rewrite !Qlt_convert, !Qge_convert. simpl scale. rewrite !Rmult_1_r.
  repeat match goal with
         | |- context [Rltb ?a ?b] => destruct (Rltb a b); simpl
         end; reflexivity.
Qed.

Lemma convert_convert (q : Quantity) (u : Unit) : convert (convert q u) u = convert q u.
Proof. unfold convert at 1. rewrite si_convert. reflexivity. Qed.

Lemma rescale_sensitivity_range (q : Quantity) :
  let r := rescale_sensitivity q in
  (unit_of r = uJy /\ value r < 1000) \/
  (unit_of r = mJy /\ 1 <= value r < 1000) \/
  (unit_of r = Jy /\ 1 <= value r).
Proof.
  intros r. unfold r. rewrite rescale_sensitivity_convert. unfold sensitivity_tier.
  destruct (Rltb (si q) (1 * scale mJy)) eqn:E1.
  - left. split; [reflexivity|]. apply Rltb_true in E1.
    rewrite value_convert. simpl in *. lra.
  - apply Rltb_false in E1.
    destruct (Rltb (si q) (1000 * scale mJy)) eqn:E2.
    + right; left. split; [reflexivity|]. apply Rltb_true in E2.
      rewrite value_convert. simpl in *. lra.
    + right; right. split; [reflexivity|]. apply Rltb_false in E2.
      rewrite value_convert. simpl in *. lra.
Qed.

Lemma rescale_t_int_range (q : Quantity) :
  let r := rescale_t_int q in
  (unit_of r = sec /\ value r < 60) \/
  (unit_of r = minute /\ 1 <= value r < 60) \/
  (unit_of r = hour /\ 1 <= value r).
Proof.
  intros r. unfold r. rewrite rescale_t_int_convert. unfold time_tier.
  destruct (Rltb (si q) 60) eqn:E1.
  - left. split; [reflexivity|]. apply Rltb_true in E1.
    rewrite value_convert. simpl in *. lra.
  - apply Rltb_false in E1.
    destruct (Rltb (si q) 3600) eqn:E2.
    + right; left. split; [reflexivity|]. apply Rltb_true in E2.
      rewrite value_convert. simpl in *. lra.
    + right; right. split; [reflexivity|]. apply Rltb_false in E2.
      rewrite value_convert. simpl in *. lra.
Qed.

(** X15. The number a calculation returns is kept small: a sensitivity in
    uJy is below 1000, in mJy it is from 1 and below 1000, in Jy it is at
    least 1; an integration time in seconds is below 60, in minutes it is
    from 1 and below 60, in hours it is at least 1. *)
Theorem returned_magnitudes_are_in_range
    (field_check : string -> Quantity -> option exn)
    (arg : option Quantity) (update_calculator : bool) (w : World) :
  match fst (calculate_sensitivity field_check arg update_calculator w) with
  | inr r => (unit_of r = uJy /\ value r < 1000) \/
             (unit_of r = mJy /\ 1 <= value r < 1000) \/
             (unit_of r = Jy /\ 1 <= value r)
  | inl _ => True
  end /\
  match fst (calculate_t_integration field_check arg update_calculator w) with
  | inr r => (unit_of r = sec /\ value r < 60) \/
             (unit_of r = minute /\ 1 <= value r < 60) \/
             (unit_of r = hour /\ 1 <= value r)
  | inl _ => True
  end.
Proof.
  split.
  - destruct (calculate_sensitivity field_check arg update_calculator w)
      as [[e|r] w'] eqn:E; simpl; [exact I|].
    apply calculate_sensitivity_returns_rescaled in E as (c & t & ->).
    apply rescale_sensitivity_range.
  - destruct (calculate_t_integration field_check arg update_calculator w)
      as [[e|r] w'] eqn:E; simpl; [exact I|].
    apply calculate_t_integration_returns_rescaled in E as (c & s & ->).
    apply rescale_t_int_range.
Qed.

(** X16. A returned value is stable under the rescaling: rescaling a
    rescaled sensitivity or integration time gives the same magnitude and
    unit again. *)
Theorem rescaling_is_idempotent (q : Quantity) :
  rescale_sensitivity (rescale_sensitivity q) = rescale_sensitivity q /\
  rescale_t_int (rescale_t_int q) = rescale_t_int q.
Proof.
  split.
  - rewrite (rescale_sensitivity_convert (rescale_sensitivity q)).
    rewrite rescale_sensitivity_si, rescale_sensitivity_convert. apply convert_convert.
  - rewrite (rescale_t_int_convert (rescale_t_int q)).
    rewrite rescale_t_int_si, rescale_t_int_convert. apply convert_convert.
Qed.

(** ** Writes and resets on a configuration *)

Lemma run_ops_snoc (ops : list ConfigOp) (o : ConfigOp) (c : Config) :
  run_ops (ops ++ [o]) c = run_op (run_ops ops c) o.
Proof. unfold run_ops. rewrite foldl_app. reflexivity. Qed.

Lemma setter_body_refs (s : SetterCall) (c : Config) :
  _calculation_inputs (setter_body s c) = _calculation_inputs c /\
  _original_inputs (setter_body s c) = _original_inputs c.
Proof. destruct s; split; reflexivity. Qed.

Lemma setter_body_other_cell (s : SetterCall) (c : Config) :
  _calculation_inputs c = ref_built ->
  cell_deepcopy (heap (setter_body s c)) = cell_deepcopy (heap c).
Proof.
  intros H. destruct c as [h live orig]. simpl in H. subst live.
  destruct s; reflexivity.
Qed.

(** X17. Until the first [reset], no setter touches the snapshot: after any
    sequence of setter calls on a freshly built configuration the object
    behind [_original_inputs] still holds the constructed inputs, and
    [reset] then makes the live inputs equal to them. *)
Theorem snapshot_untouched_before_first_reset
    (ci : CalculationInput) (calls : list SetterCall) :
  let c := run_ops (map op_setter calls) (Config_init ci) in
  original_inputs c = ci /\
  calculation_inputs (Config_reset c) = ci.
Proof.
  intros c.
  assert (H : _calculation_inputs c = ref_built /\
              _original_inputs c = ref_deepcopy /\
              cell_deepcopy (heap c) = ci).
  { unfold c. clear c. induction calls as [|s calls IH] using rev_ind.
    - repeat split.
    - rewrite map_app. simpl map. rewrite run_ops_snoc. simpl run_op.
      destruct IH as (Hlive & Horig & Hcell).
      destruct (setter_body_refs s (run_ops (map op_setter calls) (Config_init ci)))
        as [-> ->].
      rewrite setter_body_other_cell by exact Hlive. auto. }
  destruct H as (Hlive & Horig & Hcell).
  unfold original_inputs, calculation_inputs, Config_reset. simpl.
  rewrite Horig. simpl. auto.
Qed.

(** X18. From the first [reset] on, the live inputs and the snapshot are
    one object: after any further sequence of setter calls and resets the
    two references are the same, and [reset] returns the configuration as
    it is, undoing nothing. *)
Theorem reset_undoes_nothing_after_first_reset
    (c : Config) (ops : list ConfigOp) :
  let c' := run_ops ops (Config_reset c) in
  _calculation_inputs c' = _original_inputs c' /\
  Config_reset c' = c'.
Proof.
  intros c'.
  assert (H : _calculation_inputs c' = _original_inputs c').
  { unfold c'. clear c'. induction ops as [|o ops IH] using rev_ind.
    - reflexivity.
    - rewrite run_ops_snoc. destruct o as [s|]; simpl run_op.
      + destruct (setter_body_refs s (run_ops ops (Config_reset c))) as [-> ->].
        exact IH.
      + reflexivity. }
  split; [exact H|].
  destruct c' as [h live orig]. simpl in H. subst live. reflexivity.
Qed.

(** X19. The sensitivity held in the configuration is the constructed one
    for the whole life of the configuration: no setter body writes it, so
    no sequence of setter calls and resets changes its value or unit, and
    neither calculation changes it. *)
Theorem stored_sensitivity_never_changes
    (field_check : string -> Quantity -> option exn)
    (ci : CalculationInput) (ops : list ConfigOp)
    (arg : option Quantity) (update_calculator : bool) (w : World) :
  ui_sensitivity (user_input (calculation_inputs (run_ops ops (Config_init ci)))) =
    ui_sensitivity (user_input ci) /\
  uip_sensitivity
    (_config (self (snd (calculate_sensitivity field_check arg update_calculator w)))) =
    uip_sensitivity (_config (self w)) /\
  uip_sensitivity
    (_config (self (snd (calculate_t_integration field_check arg update_calculator w)))) =
    uip_sensitivity (_config (self w)).
Proof.
  split; [|split].
  - assert (H : forall r, ui_sensitivity
                (user_input (deref (heap (run_ops ops (Config_init ci))) r)) =
              ui_sensitivity (user_input ci)).
    { induction ops as [|o ops IH] using rev_ind.
      - intros []; reflexivity.
      - rewrite run_ops_snoc.
        destruct (run_ops ops (Config_init ci)) as [h live orig].
        pose proof (IH ref_built) as Hb. pose proof (IH ref_deepcopy) as Hd.
        simpl in Hb, Hd.
        destruct o as [s|]; [|intros []; assumption].
        destruct s, live; intros []; simpl; assumption. }
    apply H.
  - destruct arg as [t|], update_calculator.
    + rewrite calculate_sensitivity_given_update.
      destruct (field_check "t_int" t); [reflexivity|].
      simpl. apply uip_t_int_body_frame.
    + rewrite calculate_sensitivity_given_keep.
      destruct (field_check "t_int" t); reflexivity.
    + rewrite calculate_sensitivity_stored_update. reflexivity.
    + rewrite calculate_sensitivity_stored_keep. reflexivity.
  - destruct arg as [s|], update_calculator.
    + rewrite calculate_t_integration_given_update. cbv zeta.
      destruct (is_flux_density s); reflexivity.
    + rewrite calculate_t_integration_given_keep.
      destruct (field_check "sensitivity" s); reflexivity.
    + rewrite calculate_t_integration_stored_update.
      destruct (is_flux_density _); reflexivity.
    + rewrite calculate_t_integration_stored_keep.
      destruct (is_flux_density _); reflexivity.
Qed.

(** X20. Each setter body writes the one value it is named after: reading
    all values back after the call gives the earlier values with the given
    one in the setter's place. *)
Theorem setter_body_writes_one_value (s : SetterCall) (cfg : Config) :
  all_values (setter_body s cfg) =
  <[setter_index s := setter_value s]> (all_values cfg).
Proof.
  destruct cfg as [h live orig]. destruct s, live; reflexivity.
Qed.

(** X21. The bodies of the [t_int], [bandwidth], [obs_freq], [elevation]
    and [dish_radius] setters set the unit attribute to the unit of the
    value given; the bodies of the [n_pol] and [weather] setters leave
    every unit attribute as it was, whatever unit the value carries. *)
Theorem setter_body_unit_attribute (s : SetterCall) (cfg : Config) :
  all_units (setter_body s cfg) =
  if setter_writes_unit s
  then <[setter_index s := unit_of (setter_value s)]> (all_units cfg)
  else all_units cfg.
Proof.
  destruct cfg as [h live orig]. destruct s, live; reflexivity.
Qed.

(** ** Which inputs the derived parameters depend on *)

Lemma derived_parameters_of_t_int_body
    (Efficiencies : Quantity -> Quantity -> Quantity -> Quantity -> Quantity ->
                    Quantity -> EfficienciesT)
    (atm : AtmosphereParams)
    (Temperatures : Quantity -> Quantity -> Quantity -> Quantity -> Quantity ->
                    Quantity -> R -> TemperaturesT)
    (finetune : bool) (v : Quantity) (cfg : Config) :
  derived_parameters_of Efficiencies atm Temperatures finetune (uip_t_int_body v cfg) =
  derived_parameters_of Efficiencies atm Temperatures finetune cfg.
Proof. destruct cfg as [h live orig]. destruct live; reflexivity. Qed.

(** X22. The integration time and the number of polarisations do not feed
    the derived parameters, in either mode; in simple mode the bandwidth
    does not either; and the finetune flag changes the SEFD only, the
    other seven derived values are the same in both modes. *)
Theorem derived_parameters_dependencies
    (Efficiencies : Quantity -> Quantity -> Quantity -> Quantity -> Quantity ->
                    Quantity -> EfficienciesT)
    (atm : AtmosphereParams)
    (Temperatures : Quantity -> Quantity -> Quantity -> Quantity -> Quantity ->
                    Quantity -> R -> TemperaturesT)
    (finetune : bool) (v : Quantity) (cfg : Config) :
  let derived := derived_parameters_of Efficiencies atm Temperatures in
  derived finetune (uip_t_int_body v cfg) = derived finetune cfg /\
  derived finetune (uip_n_pol_body v cfg) = derived finetune cfg /\
  derived false (uip_bandwidth_body v cfg) = derived false cfg /\
  (dp_tau_atm (derived true cfg), dp_T_atm (derived true cfg),
   dp_T_rx (derived true cfg), dp_eta_a (derived true cfg),
   dp_eta_s (derived true cfg), dp_T_sys (derived true cfg),
   dp_T_sky (derived true cfg)) =
  (dp_tau_atm (derived false cfg), dp_T_atm (derived false cfg),
   dp_T_rx (derived false cfg), dp_eta_a (derived false cfg),
   dp_eta_s (derived false cfg), dp_T_sys (derived false cfg),
   dp_T_sky (derived false cfg)).
Proof.
  intros derived. unfold derived.
  split; [apply derived_parameters_of_t_int_body|].
  destruct cfg as [h live orig].
  split; [destruct live; reflexivity|].
  split; [destruct live; reflexivity|reflexivity].
Qed.

(** X23. A calculator is built with derived parameters that are those of
    its inputs, and neither calculation breaks this, whatever it is given
    and whether it updates or raises. *)
Theorem calculations_keep_derived_parameters_current
    (Efficiencies : Quantity -> Quantity -> Quantity -> Quantity -> Quantity ->
                    Quantity -> EfficienciesT)
    (atm : AtmosphereParams)
    (Temperatures : Quantity -> Quantity -> Quantity -> Quantity -> Quantity ->
                    Quantity -> R -> TemperaturesT)
    (field_check : string -> Quantity -> option exn)
    (arg : option Quantity) (update_calculator : bool) (w : World) :
  let current := derived_parameters_current Efficiencies atm Temperatures in
  current (self w) ->
  current (self (snd (calculate_sensitivity field_check arg update_calculator w))) /\
  current (self (snd (calculate_t_integration field_check arg update_calculator w))) /\
  forall finetune ci,
    current (Calculator_init Efficiencies atm Temperatures finetune ci).
Proof.
  intros current H. unfold current, derived_parameters_current in *.
  split; [|split; [|reflexivity]].
  - destruct arg as [t|], update_calculator.
    + rewrite calculate_sensitivity_given_update.
      destruct (field_check "t_int" t); [exact H|].
      unfold _calculate_derived_parameters in *. simpl.
      rewrite derived_parameters_of_t_int_body. exact H.
    + rewrite calculate_sensitivity_given_keep.
      destruct (field_check "t_int" t); exact H.
    + rewrite calculate_sensitivity_stored_update. exact H.
    + rewrite calculate_sensitivity_stored_keep. exact H.
  - destruct arg as [s|], update_calculator.
    + rewrite calculate_t_integration_given_update. cbv zeta.
      destruct (is_flux_density s); exact H.
    + rewrite calculate_t_integration_given_keep.
      destruct (field_check "sensitivity" s); exact H.
    + rewrite calculate_t_integration_stored_update.
      destruct (is_flux_density _); exact H.
    + rewrite calculate_t_integration_stored_keep.
      destruct (is_flux_density _); exact H.
Qed.

Lemma calculations_keep_derived_parameters_current_witness :
  derived_parameters_current sample_Efficiencies sample_atm sample_Temperatures
    (self (snd (calculate_sensitivity sample_field_check (Some (mkQ 100 sec))
                  true (sample_world true)))).
Proof.
  apply (calculations_keep_derived_parameters_current sample_Efficiencies
           sample_atm sample_Temperatures sample_field_check
           (Some (mkQ 100 sec)) true (sample_world true)).
  reflexivity.
Defined.

(** ** The channels of finetune mode *)

Lemma length_obs_band_list (x : R) (l : list R) :
  length (obs_band_list (x :: l)) = length l /\
  length (obs_mid_list (x :: l)) = length l.
Proof.
  revert x. induction l as [|y l IH]; intros x; [split; reflexivity|].
  rewrite obs_band_list_cons, obs_mid_list_cons. simpl.
  destruct (IH y) as [-> ->]. split; reflexivity.
Qed.

(** X24. Finetune mode works on one channel more than there are table
    frequencies strictly inside the band, with one SEFD per channel: a band
    without a table frequency is one channel. *)
Theorem number_of_channels
    (Efficiencies : Quantity -> Quantity -> Quantity -> Quantity -> Quantity ->
                    Quantity -> EfficienciesT)
    (atm : AtmosphereParams)
    (Temperatures : Quantity -> Quantity -> Quantity -> Quantity -> Quantity ->
                    Quantity -> R -> TemperaturesT)
    (cfg : Config) :
  length (channel_bands atm cfg) = S (length (grid_in_band atm cfg)) /\
  length (channel_sefds Efficiencies atm Temperatures cfg) =
    S (length (grid_in_band atm cfg)).
Proof.
  unfold channel_bands, channel_sefds, obs_freq_list. simpl app.
  rewrite length_map.
  destruct (length_obs_band_list (obs_freq_low cfg)
              (grid_in_band atm cfg ++ [obs_freq_upp cfg])) as [-> ->].
  rewrite length_app. simpl. split; lia.
Qed.

Lemma obs_mid_list_between (lo hi : R) (l : list R) :
  StronglySorted Rlt l ->
  Forall (fun f => lo <= f <= hi) l ->
  Forall (fun m => lo < m < hi) (obs_mid_list l).
Proof.
  intros Hsorted. induction Hsorted as [|x l Hl IH Hx]; intros Hin.
  - constructor.
  - destruct l as [|y l]; [constructor|].
    rewrite obs_mid_list_cons.
    apply Forall_cons_1 in Hin as [Hxin Hin].
    apply Forall_cons_2; [|apply IH; exact Hin].
    apply Forall_cons_1 in Hx as [Hxy _].
    apply Forall_cons_1 in Hin as [Hyin _]. lra.
Qed.

(** X25. For a positive bandwidth and a table with strictly increasing
    frequencies, every frequency at which finetune mode evaluates the
    atmosphere and temperature models lies strictly inside the band. *)
Theorem channel_midpoints_inside_band (atm : AtmosphereParams) (cfg : Config) :
  0 < si (uip_bandwidth cfg) ->
  StronglySorted Rlt (tau_atm_table_freq atm) ->
  Forall (fun m => obs_freq_low cfg < m < obs_freq_upp cfg)
         (obs_mid_list (obs_freq_list atm cfg)).
Proof.
  intros Hb Htable. pose proof (band_edges_ordered cfg Hb) as Hedges.
  apply obs_mid_list_between.
  - apply obs_freq_list_sorted; assumption.
  - unfold obs_freq_list. simpl app.
    apply Forall_cons_2; [lra|]. apply Forall_app. split.
    + rewrite Forall_forall. intros f Hf. apply list_elem_of_In in Hf.
      apply grid_in_band_spec in Hf. lra.
    + apply Forall_cons_2; [lra|apply Forall_nil_2].
Qed.

Lemma channel_midpoints_inside_band_witness :
  Forall (fun m => obs_freq_low sample_config < m < obs_freq_upp sample_config)
         (obs_mid_list (obs_freq_list sample_atm sample_config)).
Proof.
  exact (channel_midpoints_inside_band sample_atm sample_config
           sample_bandwidth_positive sample_table_sorted).
Defined.

(** X26. A flat spectrum: when every channel SEFD equals the simple-mode
    SEFD of the band centre, finetune mode gives that SEFD too (positive
    bandwidth and SEFD, a table with strictly increasing frequencies). *)
Theorem finetune_flat_spectrum
    (Efficiencies : Quantity -> Quantity -> Quantity -> Quantity -> Quantity ->
                    Quantity -> EfficienciesT)
    (atm : AtmosphereParams)
    (Temperatures : Quantity -> Quantity -> Quantity -> Quantity -> Quantity ->
                    Quantity -> R -> TemperaturesT)
    (cfg : Config) :
  let simple := si (simple_sefd Efficiencies atm Temperatures cfg) in
  0 < si (uip_bandwidth cfg) ->
  StronglySorted Rlt (tau_atm_table_freq atm) ->
  0 < simple ->
  Forall (fun s => s = simple) (channel_sefds Efficiencies atm Temperatures cfg) ->
  si (dp_sefd (derived_parameters_of Efficiencies atm Temperatures true cfg)) =
  simple.
Proof.
  intros simple Hb Htable Hpos Hflat.
  destruct (finetune_sefd_within Efficiencies atm Temperatures cfg simple simple)
    as [_ H]; auto.
  - eapply Forall_impl; [exact Hflat|]. simpl. intros s ->. lra.
  - lra.
Qed.

Lemma flat_simple_sefd (cfg : Config) :
  si (simple_sefd sample_Efficiencies sample_atm flat_Temperatures cfg) =
  2 * k_B * 80 /
  (value (isp_eta_ill cfg) * value (isp_eta_block cfg) *
   (PI * si (isp_dish_radius cfg) ^ 2)).
Proof.
  unfold simple_sefd, derived_parameters_of, _calculate_sefd, flat_Temperatures,
    sample_Efficiencies.
  cbn [dp_sefd andb T_sys eta_a]. unfold si at 1 2. cbn [value unit_of scale].
  rewrite !Rmult_1_r. reflexivity.
Qed.

Lemma flat_channel_sefd (cfg : Config) (x : R) :
  channel_sefd sample_atm flat_Temperatures cfg
    (efficiencies_of sample_Efficiencies cfg) x =
  si (simple_sefd sample_Efficiencies sample_atm flat_Temperatures cfg).
Proof.
  rewrite flat_simple_sefd.
  unfold channel_sefd, _calculate_sefd, flat_Temperatures, efficiencies_of,
    sample_Efficiencies, convert.
  cbn [T_sys eta_a value unit_of]. unfold si at 1 2. cbn [value unit_of scale].
  rewrite !Rmult_1_r. unfold Rdiv at 1. rewrite Rinv_1, Rmult_1_r. reflexivity.
Qed.

Lemma finetune_flat_spectrum_witness :
  si (dp_sefd (derived_parameters_of sample_Efficiencies sample_atm
                 flat_Temperatures true sample_config)) =
  si (simple_sefd sample_Efficiencies sample_atm flat_Temperatures sample_config).
Proof.
  apply (finetune_flat_spectrum sample_Efficiencies sample_atm flat_Temperatures
           sample_config sample_bandwidth_positive sample_table_sorted).
  - rewrite flat_simple_sefd. unfold si. simpl. pose proof PI_RGT_0.
    apply Rdiv_lt_0_compat; [unfold k_B; lra|nra].
  - unfold channel_sefds. rewrite Forall_forall. intros s Hs.
    apply list_elem_of_In, in_map_iff in Hs as (x & <- & _).
    apply flat_channel_sefd.
Defined.

(** ** The dish radius *)

Lemma si_J_m2 (x : R) : si (mkQ x J_m2) = x.
Proof. unfold si. simpl. apply Rmult_1_r. Qed.

Lemma isp_dish_radius_body_frame (v : Quantity) (cfg : Config) :
  isp_dish_radius (isp_dish_radius_body v cfg) = v /\
  forall (Efficiencies : Quantity -> Quantity -> Quantity -> Quantity ->
                         Quantity -> Quantity -> EfficienciesT)
         (atm : AtmosphereParams)
         (Temperatures : Quantity -> Quantity -> Quantity -> Quantity ->
                         Quantity -> Quantity -> R -> TemperaturesT),
    let d' := derived_parameters_of Efficiencies atm Temperatures false
                (isp_dish_radius_body v cfg) in
    let d := derived_parameters_of Efficiencies atm Temperatures false cfg in
    dp_T_sys d' = dp_T_sys d /\ dp_eta_a d' = dp_eta_a d.
Proof.
  destruct cfg as [h live orig]. destruct live; split; try reflexivity;
    intros; split; reflexivity.
Qed.

(** X27. The simple-mode SEFD goes with the inverse of the dish area: after
    the body of the [dish_radius] setter has written a radius [k] times the
    earlier one, the SEFD is the earlier SEFD divided by [k^2], the system
    temperature and the aperture efficiency being the same (non-zero [k],
    earlier radius and aperture efficiency). *)
Theorem simple_sefd_inverse_dish_area
    (Efficiencies : Quantity -> Quantity -> Quantity -> Quantity -> Quantity ->
                    Quantity -> EfficienciesT)
    (atm : AtmosphereParams)
    (Temperatures : Quantity -> Quantity -> Quantity -> Quantity -> Quantity ->
                    Quantity -> R -> TemperaturesT)
    (v : Quantity) (k : R) (cfg : Config) :
  k <> 0 -> si (isp_dish_radius cfg) <> 0 ->
  dp_eta_a (derived_parameters_of Efficiencies atm Temperatures false cfg) <> 0 ->
  si v = k * si (isp_dish_radius cfg) ->
  si (simple_sefd Efficiencies atm Temperatures (isp_dish_radius_body v cfg)) =
  si (simple_sefd Efficiencies atm Temperatures cfg) / k ^ 2.
Proof.
  intros Hk Hr Heta Hv.
  destruct (isp_dish_radius_body_frame v cfg) as [Hrad Hframe].
  destruct (Hframe Efficiencies atm Temperatures) as [HT Ha].
  unfold simple_sefd.
  set (d' := derived_parameters_of Efficiencies atm Temperatures false
               (isp_dish_radius_body v cfg)) in *.
  set (d := derived_parameters_of Efficiencies atm Temperatures false cfg) in *.
  assert (Hd' : dp_sefd d' =
                _calculate_sefd (isp_dish_radius_body v cfg) (dp_T_sys d') (dp_eta_a d'))
    by reflexivity.
  assert (Hd : dp_sefd d = _calculate_sefd cfg (dp_T_sys d) (dp_eta_a d))
    by reflexivity.
  rewrite Hd', Hd, HT, Ha. unfold _calculate_sefd.
  rewrite Hrad, Hv, !si_J_m2.
  pose proof PI_RGT_0. field. repeat split; try assumption; lra.
Qed.

Lemma simple_sefd_inverse_dish_area_witness :
  si (simple_sefd sample_Efficiencies sample_atm sample_Temperatures
        (isp_dish_radius_body (mkQ 50 metre) sample_config)) =
  si (simple_sefd sample_Efficiencies sample_atm sample_Temperatures
        sample_config) / 2 ^ 2.
Proof.
  apply (simple_sefd_inverse_dish_area sample_Efficiencies sample_atm
           sample_Temperatures (mkQ 50 metre) 2 sample_config).
  - lra.
  - unfold si. simpl. lra.
  - simpl. lra.
  - unfold si. simpl. lra.
Defined.

Lemma np_sum_zip_scaled_sefds (g c : R) (bands sefds : list R) :
  np_sum (zip_with (fun b s => b * g / s ^ 2) bands (map (fun s => s * c) sefds)) =
  np_sum (zip_with (fun b s => b * g / s ^ 2) bands sefds) * / c ^ 2.
Proof.
  revert sefds. induction bands as [|b bands IH]; intros sefds.
  - simpl. ring.
  - destruct sefds as [|s sefds]; [simpl; ring|].
    cbn [map zip_with]. rewrite !np_sum_cons, IH.
    unfold Rdiv. replace ((s * c) ^ 2) with (s ^ 2 * c ^ 2) by ring.
    rewrite Rinv_mult. ring.
Qed.

Lemma effective_sefd_scaled (bandwidth : Quantity) (c : R) (bands sefds : list R) :
  0 <= c ->
  si (effective_sefd bandwidth bands (map (fun s => s * c) sefds)) =
  si (effective_sefd bandwidth bands sefds) * c.
Proof.
  intros Hc. rewrite !effective_sefd_si, np_sum_zip_scaled_sefds.
  set (S := np_sum (zip_with (fun b s => b * scale GHz / s ^ 2) bands sefds)).
  replace (si bandwidth / (S * / c ^ 2)) with (c ^ 2 * (si bandwidth / S)).
  - rewrite sqrt_mult_alt by nra. rewrite sqrt_pow2 by exact Hc. ring.
  - unfold Rdiv. rewrite Rinv_mult, Rinv_inv. ring.
Qed.

Lemma channel_sefd_dish_radius
    (atm : AtmosphereParams)
    (Temperatures : Quantity -> Quantity -> Quantity -> Quantity -> Quantity ->
                    Quantity -> R -> TemperaturesT)
    (v : Quantity) (k : R) (cfg : Config) (eta : EfficienciesT) (x : R) :
  k <> 0 -> si (isp_dish_radius cfg) <> 0 -> eta_a eta <> 0 ->
  si v = k * si (isp_dish_radius cfg) ->
  channel_sefd atm Temperatures (isp_dish_radius_body v cfg) eta x =
  channel_sefd atm Temperatures cfg eta x * / k ^ 2.
Proof.
  intros Hk Hr Heta Hv.
  assert (H : channel_sefd atm Temperatures (isp_dish_radius_body v cfg) eta x =
              si (_calculate_sefd (isp_dish_radius_body v cfg)
                    (T_sys (Temperatures (mkQ x GHz) (isp_T_cmb cfg) (isp_T_amb cfg)
                              (isp_g cfg) (isp_eta_eff cfg)
                              (calculate_atmospheric_temperature atm (mkQ x GHz)
                                 (uip_weather cfg))
                              (calculate_tau_atm atm (mkQ x GHz) (uip_weather cfg)
                                 (uip_elevation cfg))))
                    (eta_a eta)) / scale J_m2).
  { destruct cfg as [h live orig]. destruct live; reflexivity. }
  rewrite H. unfold channel_sefd. rewrite value_convert. unfold _calculate_sefd.
  destruct (isp_dish_radius_body_frame v cfg) as [-> _].
  rewrite Hv, !si_J_m2. cbn [scale].
  pose proof PI_RGT_0. field. repeat split; try assumption; lra.
Qed.

(** X28. In finetune mode too the SEFD goes with the inverse of the dish
    area: after the body of the [dish_radius] setter has written a radius
    [k] times the earlier one, the finetune SEFD is the earlier one divided
    by [k^2] (non-zero [k], earlier radius and aperture efficiency). *)
Theorem finetune_sefd_inverse_dish_area
    (Efficiencies : Quantity -> Quantity -> Quantity -> Quantity -> Quantity ->
                    Quantity -> EfficienciesT)
    (atm : AtmosphereParams)
    (Temperatures : Quantity -> Quantity -> Quantity -> Quantity -> Quantity ->
                    Quantity -> R -> TemperaturesT)
    (v : Quantity) (k : R) (cfg : Config) :
  k <> 0 -> si (isp_dish_radius cfg) <> 0 ->
  eta_a (efficiencies_of Efficiencies cfg) <> 0 ->
  si v = k * si (isp_dish_radius cfg) ->
  si (dp_sefd (derived_parameters_of Efficiencies atm Temperatures true
                 (isp_dish_radius_body v cfg))) =
  si (dp_sefd (derived_parameters_of Efficiencies atm Temperatures true cfg)) /
  k ^ 2.
Proof.
  intros Hk Hr Heta Hv.
  rewrite !finetune_sefd_is_effective.
  assert (Hsame : uip_bandwidth (isp_dish_radius_body v cfg) = uip_bandwidth cfg /\
                  channel_bands atm (isp_dish_radius_body v cfg) =
                    channel_bands atm cfg /\
                  obs_freq_list atm (isp_dish_radius_body v cfg) =
                    obs_freq_list atm cfg /\
                  efficiencies_of Efficiencies (isp_dish_radius_body v cfg) =
                    efficiencies_of Efficiencies cfg).
  { destruct cfg as [h live orig]. destruct live; repeat split. }
  destruct Hsame as (-> & -> & Hfreqs & Heff).
  assert (Hsefds : channel_sefds Efficiencies atm Temperatures
                     (isp_dish_radius_body v cfg) =
                   map (fun s => s * / k ^ 2)
                       (channel_sefds Efficiencies atm Temperatures cfg)).
  { unfold channel_sefds. rewrite Hfreqs, Heff, map_map.
    apply map_ext. intros x. apply (channel_sefd_dish_radius _ _ v k); assumption. }
  rewrite Hsefds, effective_sefd_scaled.
  - reflexivity.
  - apply Rlt_le, Rinv_0_lt_compat. nra.
Qed.

Lemma finetune_sefd_inverse_dish_area_witness :
  si (dp_sefd (derived_parameters_of sample_Efficiencies sample_atm
                 sample_Temperatures true
                 (isp_dish_radius_body (mkQ 50 metre) sample_config))) =
  si (dp_sefd (derived_parameters_of sample_Efficiencies sample_atm
                 sample_Temperatures true sample_config)) / 2 ^ 2.
Proof.
  apply (finetune_sefd_inverse_dish_area sample_Efficiencies sample_atm
           sample_Temperatures (mkQ 50 metre) 2 sample_config).
  - lra.
  - unfold si. simpl. lra.
  - simpl. lra.
  - unfold si. simpl. lra.
Defined.
